(** * motion-dom: the JavaScript value-animation engine

    A shallow embedding of [JSAnimation.ts] (the time-driven animation state
    machine) and of [keyframes/utils/is-none.ts], with the properties the
    engine's specification states about them.

    Number model.  JavaScript numbers are embedded as exact rationals [Q]:
    every finite value the engine manipulates (timestamps and durations in
    milliseconds, progress fractions, playback speeds) is a rational, and the
    operations used by the source ([+], [-], [*], [/], [Math.round],
    [Math.floor], [Math.min], [Math.max], [%]) are the exact ones.  [NaN],
    the infinities and binary64 rounding are outside the model; a quotient is
    only meaningful when its divisor is non-zero.  Equality of numbers is
    [Qeq] (written [==]).

    Effects.  The methods of the class mutate [this], bump the process-wide
    [activeAnimations.mainThread] counter, read two ambient clocks
    ([time.now()] and [driver.now()]) and call out to the driver, to the
    generators and to the user's callbacks.  They are embedded in a small
    state-and-exception monad over a [World] that holds the object, the
    counter, the clocks and a chronological trace of the calls made to the
    outside. *)

From Stdlib Require Import ZArith Zquot QArith Qround Qminmax Bool List String.
From Stdlib Require Import Lia Lqa.
Import ListNotations.
Open Scope Q_scope.

(** ** JavaScript number primitives over [Q] *)

Module JS.

  (** [x < y] *)
Definition ltb (x y : Q) : bool := negb (Qle_bool y x).

  (** [x <= y] *)
Definition leb (x y : Q) : bool := Qle_bool x y.

  (** [x === y] on numbers *)
Definition eqb (x y : Q) : bool := Qeq_bool x y.

  (** Truthiness of a number: every number but [0] is truthy. *)
Definition truthy (x : Q) : bool := negb (Qeq_bool x 0).

  (** [Math.round]: the nearest integer, ties going up. *)
Definition round (x : Q) : Q := inject_Z (Qfloor (x + (1 # 2))).

  (** [Math.floor] *)
Definition floor (x : Q) : Z := Qfloor x.

  (** Truncation toward zero, the integer part used by [%]. *)
Definition trunc (x : Q) : Z := if ltb x 0 then Qceiling x else Qfloor x.

  (** [x % 1.0]: the remainder has the sign of the dividend. *)
Definition rem1 (x : Q) : Q := x - inject_Z (trunc x).

  (** [Boolean(n % 2)] on an integer-valued number. *)
Definition odd (n : Z) : bool := negb (Z.rem n 2 =? 0)%Z.

End JS.

(** ** is-none.ts *)

(** The argument type of [isNone]: [string | number | null]. *)
Inductive StringNumberNull : Type :=
| SNNumber (n : Q)
| SNString (s : string)
| SNNull.

Section IsNone.

  (** [isZeroValueString] is imported from motion-utils; the predicate is
      kept abstract. *)
Variable isZeroValueString : string -> bool.

Definition isNone (value : StringNumberNull) : bool :=
    match value with
    | SNNumber n => JS.eqb n 0
    | SNString s =>
        String.eqb s "none" || String.eqb s "0" || isZeroValueString s
    | SNNull => true
    end.

End IsNone.

(** ** JSAnimation.ts: data *)

(** Values that flow through the engine: a keyframe is a number or a string;
    [null] and [undefined] appear when an array is read out of range or a
    keyframe is unresolved. *)
Inductive JSValue : Type :=
| VNumber (n : Q)
| VString (s : string)
| VNull
| VUndefined.

(** [typeof v === "number"] *)
Definition isNumber (v : JSValue) : bool :=
  match v with VNumber _ => true | _ => false end.

(** [AnimationPlayState] *)
Inductive AnimationPlayState : Type := idle | running | paused | finished.

Definition AnimationPlayState_eqb (a b : AnimationPlayState) : bool :=
  match a, b with
  | idle, idle | running, running | paused, paused | finished, finished => true
  | _, _ => false
  end.

(** [repeatType] *)
Inductive RepeatType : Type := loop | reverse | mirror.

(** [AnimationState<T>]: what a generator's [next] and [tick] return. *)
Record AnimationState : Type := mkAnimationState {
  value : JSValue;
  done : bool
}.

(** [state.value = v] *)
Definition set_value (v : JSValue) (s : AnimationState) : AnimationState :=
  mkAnimationState v (done s).

(** [KeyframeGenerator<T>]: a sampling function and a cached duration. *)
Record KeyframeGenerator : Type := mkGenerator {
  next : Q -> AnimationState;
  gen_calculatedDuration : option Q
}.

(** The generator factories, compared by reference in the source
    ([generatorFactory !== keyframesGenerator], [type !== inertia]).
    [replaceTransitionType] has already turned a type given by name into its
    factory. *)
Inductive GeneratorFactory : Type :=
| keyframesGenerator
| inertia
| spring
| customFactory (id : nat).

Definition GeneratorFactory_eqb (f g : GeneratorFactory) : bool :=
  match f, g with
  | keyframesGenerator, keyframesGenerator => true
  | inertia, inertia => true
  | spring, spring => true
  | customFactory i, customFactory j => Nat.eqb i j
  | _, _ => false
  end.

(** [ValueAnimationOptions<T>].  An option the source reads with a default,
    or only tests for truthiness, holds the default when it is absent:
    [repeat], [repeatDelay], [velocity] and [delay] are [0] when undefined.
    A callback is recorded by whether it was supplied. *)
Module Options.
Record t : Type := mk {
    keyframes : list JSValue;
    type : option GeneratorFactory;
    repeat : Z;
    repeatDelay : Q;
    repeatType : option RepeatType;
    velocity : Q;
    delay : Q;
    autoplay : bool;                (* [false] only for [autoplay: false] *)
    startTime : option Q;
    finalKeyframe : option JSValue;
    motionValue : option Q;         (* [motionValue.updatedAt] *)
    onPlay : bool;
    onUpdate : bool;
    onComplete : bool;
    onStop : bool;
    onCancel : bool
  }.

  (** [{ ...options, keyframes }] *)
Definition with_keyframes (ks : list JSValue) (o : t) : t :=
    mk ks (type o) (repeat o) (repeatDelay o) (repeatType o) (velocity o)
       (delay o) (autoplay o) (startTime o) (finalKeyframe o) (motionValue o)
       (onPlay o) (onUpdate o) (onComplete o) (onStop o) (onCancel o).

  (** [{ ...options, velocity }] *)
Definition with_velocity (v : Q) (o : t) : t :=
    mk (keyframes o) (type o) (repeat o) (repeatDelay o) (repeatType o) v
       (delay o) (autoplay o) (startTime o) (finalKeyframe o) (motionValue o)
       (onPlay o) (onUpdate o) (onComplete o) (onStop o) (onCancel o).
End Options.

(** [DriverControls]: the handle a driver factory returns.  The loop itself
    lives outside the engine; the calls made to it are recorded in the
    trace. *)
Inductive DriverControls : Type := driverControls.

(** The fields of a [JSAnimation] instance. *)
Record JSAnimation : Type := mkJSAnimation {
  state : AnimationPlayState;
  startTime : option Q;
  driver : option DriverControls;
  isStopped : bool;
  generator : KeyframeGenerator;
  calculatedDuration : option Q;
  resolvedDuration : Q;
  totalDuration : Q;
  options : Options.t;
  currentTime : Q;
  holdTime : option Q;
  playbackSpeed : Q;
  mixKeyframes : option (JSValue -> JSValue);
  mirroredGenerator : option KeyframeGenerator
}.

(** Calls that leave the engine, in the order they are made. *)
Inductive Event : Type :=
| GeneratorNext (mirrored : bool) (t : Q)   (* [generator.next(t)] *)
| CallOnPlay
| CallOnUpdate (v : JSValue)
| CallOnComplete
| CallOnStop
| CallOnCancel
| DriverCreate
| DriverStart (keepAlive : option bool)
| DriverStop
| NotifyFinished                            (* [WithPromise.notifyFinished] *)
| UpdateFinished.                           (* [WithPromise.updateFinished] *)

(** What a method runs in: the object, the process-wide counter
    [activeAnimations.mainThread], the two clocks and the trace. *)
Record World : Type := mkWorld {
  this : JSAnimation;
  mainThread : Z;
  time_now : Q;      (* [time.now()] of frameloop/sync-time *)
  driver_now : Q;    (* [this.driver.now()] *)
  trace : list Event
}.

(** Errors a method can end with. *)
Inductive JSError : Type :=
| InvariantError (message : string) (errorCode : string)
| TypeError (message : string).

Inductive Completion (A : Type) : Type :=
| Normal (x : A)
| Throw (e : JSError).
Arguments Normal {A} x.
Arguments Throw {A} e.

(** ** The method monad: state that survives an exception *)

Definition M (A : Type) : Type := World -> Completion A * World.

Definition ret {A} (x : A) : M A := fun w => (Normal x, w).

Definition bind {A B} (m : M A) (k : A -> M B) : M B :=
  fun w =>
    match m w with
    | (Normal x, w') => k x w'
    | (Throw e, w') => (Throw e, w')
    end.

Definition throw {A} (e : JSError) : M A := fun w => (Throw e, w).

Declare Scope js_scope.
Delimit Scope js_scope with js.
Notation "x <- m ;; k" := (bind m (fun x => k))
  (at level 61, m at next level, right associativity) : js_scope.
Notation "m ;; k" := (bind m (fun _ => k))
  (at level 61, right associativity) : js_scope.
Open Scope js_scope.

Definition get : M JSAnimation := fun w => (Normal (this w), w).

Definition modify (f : JSAnimation -> JSAnimation) : M unit :=
  fun w => (Normal tt,
            mkWorld (f (this w)) (mainThread w) (time_now w) (driver_now w) (trace w)).

Definition emit (e : Event) : M unit :=
  fun w => (Normal tt,
            mkWorld (this w) (mainThread w) (time_now w) (driver_now w) (trace w ++ [e])).

Definition when (b : bool) (m : M unit) : M unit := if b then m else ret tt.

(** [activeAnimations.mainThread++] and [--] *)
Definition incrMainThread : M unit :=
  fun w => (Normal tt,
            mkWorld (this w) (mainThread w + 1)%Z (time_now w) (driver_now w) (trace w)).
Definition decrMainThread : M unit :=
  fun w => (Normal tt,
            mkWorld (this w) (mainThread w - 1)%Z (time_now w) (driver_now w) (trace w)).

(** [time.now()] and [this.driver.now()] *)
Definition timeNow : M Q := fun w => (Normal (time_now w), w).
Definition driverNow : M Q := fun w => (Normal (driver_now w), w).

(** Field assignments. *)
Definition set_state (x : AnimationPlayState) (a : JSAnimation) : JSAnimation :=
  mkJSAnimation x (startTime a) (driver a) (isStopped a) (generator a)
    (calculatedDuration a) (resolvedDuration a) (totalDuration a) (options a)
    (currentTime a) (holdTime a) (playbackSpeed a) (mixKeyframes a)
    (mirroredGenerator a).
Definition set_startTime (x : option Q) (a : JSAnimation) : JSAnimation :=
  mkJSAnimation (state a) x (driver a) (isStopped a) (generator a)
    (calculatedDuration a) (resolvedDuration a) (totalDuration a) (options a)
    (currentTime a) (holdTime a) (playbackSpeed a) (mixKeyframes a)
    (mirroredGenerator a).
Definition set_driver (x : option DriverControls) (a : JSAnimation) : JSAnimation :=
  mkJSAnimation (state a) (startTime a) x (isStopped a) (generator a)
    (calculatedDuration a) (resolvedDuration a) (totalDuration a) (options a)
    (currentTime a) (holdTime a) (playbackSpeed a) (mixKeyframes a)
    (mirroredGenerator a).
Definition set_isStopped (x : bool) (a : JSAnimation) : JSAnimation :=
  mkJSAnimation (state a) (startTime a) (driver a) x (generator a)
    (calculatedDuration a) (resolvedDuration a) (totalDuration a) (options a)
    (currentTime a) (holdTime a) (playbackSpeed a) (mixKeyframes a)
    (mirroredGenerator a).
Definition set_currentTime (x : Q) (a : JSAnimation) : JSAnimation :=
  mkJSAnimation (state a) (startTime a) (driver a) (isStopped a) (generator a)
    (calculatedDuration a) (resolvedDuration a) (totalDuration a) (options a)
    x (holdTime a) (playbackSpeed a) (mixKeyframes a) (mirroredGenerator a).
Definition set_holdTime (x : option Q) (a : JSAnimation) : JSAnimation :=
  mkJSAnimation (state a) (startTime a) (driver a) (isStopped a) (generator a)
    (calculatedDuration a) (resolvedDuration a) (totalDuration a) (options a)
    (currentTime a) x (playbackSpeed a) (mixKeyframes a) (mirroredGenerator a).
Definition set_playbackSpeed (x : Q) (a : JSAnimation) : JSAnimation :=
  mkJSAnimation (state a) (startTime a) (driver a) (isStopped a) (generator a)
    (calculatedDuration a) (resolvedDuration a) (totalDuration a) (options a)
    (currentTime a) (holdTime a) x (mixKeyframes a) (mirroredGenerator a).
Definition set_generator (x : KeyframeGenerator) (a : JSAnimation) : JSAnimation :=
  mkJSAnimation (state a) (startTime a) (driver a) (isStopped a) x
    (calculatedDuration a) (resolvedDuration a) (totalDuration a) (options a)
    (currentTime a) (holdTime a) (playbackSpeed a) (mixKeyframes a)
    (mirroredGenerator a).
Definition set_calculatedDuration (x : option Q) (a : JSAnimation) : JSAnimation :=
  mkJSAnimation (state a) (startTime a) (driver a) (isStopped a) (generator a)
    x (resolvedDuration a) (totalDuration a) (options a)
    (currentTime a) (holdTime a) (playbackSpeed a) (mixKeyframes a)
    (mirroredGenerator a).
Definition set_resolvedDuration (x : Q) (a : JSAnimation) : JSAnimation :=
  mkJSAnimation (state a) (startTime a) (driver a) (isStopped a) (generator a)
    (calculatedDuration a) x (totalDuration a) (options a)
    (currentTime a) (holdTime a) (playbackSpeed a) (mixKeyframes a)
    (mirroredGenerator a).
Definition set_totalDuration (x : Q) (a : JSAnimation) : JSAnimation :=
  mkJSAnimation (state a) (startTime a) (driver a) (isStopped a) (generator a)
    (calculatedDuration a) (resolvedDuration a) x (options a)
    (currentTime a) (holdTime a) (playbackSpeed a) (mixKeyframes a)
    (mirroredGenerator a).
Definition set_mixKeyframes (x : option (JSValue -> JSValue)) (a : JSAnimation)
  : JSAnimation :=
  mkJSAnimation (state a) (startTime a) (driver a) (isStopped a) (generator a)
    (calculatedDuration a) (resolvedDuration a) (totalDuration a) (options a)
    (currentTime a) (holdTime a) (playbackSpeed a) x (mirroredGenerator a).
Definition set_mirroredGenerator (x : option KeyframeGenerator) (a : JSAnimation)
  : JSAnimation :=
  mkJSAnimation (state a) (startTime a) (driver a) (isStopped a) (generator a)
    (calculatedDuration a) (resolvedDuration a) (totalDuration a) (options a)
    (currentTime a) (holdTime a) (playbackSpeed a) (mixKeyframes a) x.

(** ** Helpers imported from motion-utils *)

(** Modelled from the spec: [secondsToMilliseconds] of motion-utils is not
    among the sources; the seek path "converts seconds to ms". *)
Definition secondsToMilliseconds (seconds : Q) : Q := seconds * 1000.

(** Modelled from the spec: [millisecondsToSeconds] of motion-utils is not
    among the sources; [duration] and [time] are exposed in seconds while the
    fields hold milliseconds. *)
Definition millisecondsToSeconds (milliseconds : Q) : Q := milliseconds / 1000.

(** Modelled from the spec: [clamp] of motion-utils is not among the sources;
    [clamp 0 1] is the spec's clamp01. *)
Definition clamp (min max v : Q) : Q :=
  if JS.ltb max v then max else if JS.ltb v min then min else v.

(** Modelled from the spec: [invariant] of motion-utils is not among the
    sources; a violated configuration is "reported as a development-time
    assertion with a descriptive message". *)
Definition invariant (check : bool) (message errorCode : string) : M unit :=
  if check then ret tt else throw (InvariantError message errorCode).

(** [percentToProgress] *)
Definition percentToProgress (percent : Q) : Q := percent / 100.

(** ** JSAnimation.ts: methods *)

Section Engine.

(** What the engine is linked against and the sources do not contain: the
    generator factories, the duration calculator, the final-keyframe
    resolver, the mixer, and the string and number conversions JavaScript
    applies implicitly. *)
Variable runFactory : GeneratorFactory -> Options.t -> KeyframeGenerator.
Variable calcGeneratorDuration : KeyframeGenerator -> Q.
Variable getFinalKeyframe :
  list JSValue -> Options.t -> option JSValue -> Q -> JSValue.
Variable mix : JSValue -> JSValue -> Q -> JSValue.
Variable toNumber : JSValue -> Q.
Variable toString : JSValue -> string.

(** [process.env.NODE_ENV === "production"] *)
Variable production : bool.

(** [keyframes[i]] *)
Definition index (keyframes : list JSValue) (i : nat) : JSValue :=
  nth i keyframes VUndefined.

(** [`${keyframes}`]: the elements joined by commas. *)
Definition keyframesToString (keyframes : list JSValue) : string :=
  String.concat "," (map toString keyframes).

(** [state.value as number] *)
Definition asNumber (v : JSValue) : Q :=
  match v with VNumber n => n | _ => toNumber v end.

Definition twoKeyframesMessage (keyframes : list JSValue) : string :=
  ("Only two keyframes currently supported with spring and inertia animations. Trying to animate "
   ++ keyframesToString keyframes)%string.

Definition initAnimation : M unit :=
  a <- get ;;
  let options := options a in
  let type :=
    match Options.type options with Some f => f | None => keyframesGenerator end in
  let repeat := Options.repeat options in
  let repeatDelay := Options.repeatDelay options in
  let repeatType := Options.repeatType options in
  let velocity := Options.velocity options in
  let keyframes := Options.keyframes options in
  let generatorFactory := type in
  when (negb production
        && negb (GeneratorFactory_eqb generatorFactory keyframesGenerator))
       (invariant (List.length keyframes <=? 2)%nat
                  (twoKeyframesMessage keyframes) "spring-two-frames") ;;
  keyframes <-
    (if negb (GeneratorFactory_eqb generatorFactory keyframesGenerator)
        && negb (isNumber (index keyframes 0))
     then
       modify (set_mixKeyframes
                 (Some (fun v => mix (index keyframes 0) (index keyframes 1)
                                     (percentToProgress (asNumber v))))) ;;
       ret [VNumber 0; VNumber 100]
     else ret keyframes) ;;
  let generator :=
    runFactory generatorFactory (Options.with_keyframes keyframes options) in
  when (match repeatType with Some mirror => true | _ => false end)
       (modify (set_mirroredGenerator
                  (Some (runFactory generatorFactory
                           (Options.with_velocity (- velocity)
                              (Options.with_keyframes (rev keyframes) options)))))) ;;
  let generator :=
    match gen_calculatedDuration generator with
    | None => mkGenerator (next generator) (Some (calcGeneratorDuration generator))
    | Some _ => generator
    end in
  let calculatedDuration :=
    match gen_calculatedDuration generator with Some d => d | None => 0 end in
  modify (set_calculatedDuration (Some calculatedDuration)) ;;
  modify (set_resolvedDuration (calculatedDuration + repeatDelay)) ;;
  modify (fun a =>
            set_totalDuration
              (resolvedDuration a * (inject_Z repeat + 1) - repeatDelay) a) ;;
  modify (set_generator generator).

(** [this.speed] *)
Definition speed (a : JSAnimation) : Q := playbackSpeed a.

(** The assignment [updateTime] makes to [this].  [this.startTime!] is an
    unchecked assertion: [null] enters the subtraction as [0]. *)
Definition updateTimeOf (timestamp : Q) (a : JSAnimation) : JSAnimation :=
  let animationTime :=
    JS.round (timestamp - match startTime a with Some s => s | None => 0 end)
    * playbackSpeed a in
  match holdTime a with
  | Some h => set_currentTime h a
  | None => set_currentTime animationTime a
  end.

Definition updateTime (timestamp : Q) : M unit :=
  modify (updateTimeOf timestamp).

Definition stopDriver : M unit :=
  a <- get ;;
  match driver a with
  | None => ret tt
  | Some _ => emit DriverStop ;; modify (set_driver None)
  end.

Definition teardown : M unit :=
  modify (set_state idle) ;;
  stopDriver ;;
  modify (set_holdTime None) ;;
  modify (set_startTime None) ;;
  decrMainThread.

Definition finish : M unit :=
  emit NotifyFinished ;;
  teardown ;;
  modify (set_state finished) ;;
  a <- get ;;
  when (Options.onComplete (options a)) (emit CallOnComplete).

(** [frameGenerator]: the primary generator, or [mirroredGenerator!] on the
    odd iterations of a mirror repeat.  The [!] is an unchecked assertion:
    the mirrored generator may be undefined. *)
Definition frameGenerator (a : JSAnimation) (mirrored : bool)
  : option KeyframeGenerator :=
  if mirrored then mirroredGenerator a else Some (generator a).

(** [frameGenerator.next(elapsed)]; on an undefined generator it is a
    [TypeError]. *)
Definition generatorNext (mirrored : bool) (elapsed : Q) : M AnimationState :=
  a <- get ;;
  match frameGenerator a mirrored with
  | Some g => emit (GeneratorNext mirrored elapsed) ;; ret (next g elapsed)
  | None =>
      throw (TypeError "Cannot read properties of undefined (reading 'next')")
  end.

(** The body of [if (repeat) { ... }] in [tick]: from the engine as it stands
    after the time update, the time at which to sample and whether the
    mirrored generator is the one to sample. *)
Definition repeatPhase (a : JSAnimation) : Q * bool :=
  let repeat := Options.repeat (options a) in
  let repeatType := Options.repeatType (options a) in
  let repeatDelay := Options.repeatDelay (options a) in
  let progress := Qmin (currentTime a) (totalDuration a) / resolvedDuration a in
  let currentIteration := JS.floor progress in
  let iterationProgress := JS.rem1 progress in
  let iterationProgress :=
    if negb (JS.truthy iterationProgress) && JS.leb 1 progress
    then 1 else iterationProgress in
  let currentIteration :=
    if JS.eqb iterationProgress 1 then (currentIteration - 1)%Z
    else currentIteration in
  let currentIteration := Z.min currentIteration (repeat + 1) in
  let isOddIteration := JS.odd currentIteration in
  let '(iterationProgress, mirrored) :=
    if isOddIteration then
      match repeatType with
      | Some reverse =>
          let iterationProgress := 1 - iterationProgress in
          (if JS.truthy repeatDelay
           then iterationProgress - repeatDelay / resolvedDuration a
           else iterationProgress, false)
      | Some mirror => (iterationProgress, true)
      | _ => (iterationProgress, false)
      end
    else (iterationProgress, false) in
  (clamp 0 1 iterationProgress * resolvedDuration a, mirrored).

Definition is_null {A} (x : option A) : bool :=
  match x with None => true | Some _ => false end.

(** The clock part of [tick], lines 204-237: [startTime] is clamped against
    the incoming timestamp, [currentTime] is taken from the timestamp, the
    delay is taken off and a finished animation is pinned to its end.
    Returns the object as assigned and [isInDelayPhase]. *)
Definition tickClock (timestamp : Q) (sample : bool) (a : JSAnimation)
  : JSAnimation * bool :=
  let totalDuration := totalDuration a in
  let delay := Options.delay (options a) in
  let a :=
    match startTime a with
    | None => a
    | Some startTime0 =>
        if JS.ltb 0 (speed a) then
          set_startTime (Some (Qmin startTime0 timestamp)) a
        else if JS.ltb (speed a) 0 then
          set_startTime
            (Some (Qmin (timestamp - totalDuration / speed a) startTime0)) a
        else a
    end in
  let a :=
    if sample then set_currentTime timestamp a else updateTimeOf timestamp a in
  let timeWithoutDelay :=
    currentTime a - delay * (if JS.leb 0 (playbackSpeed a) then 1 else -1) in
  let isInDelayPhase :=
    if JS.leb 0 (playbackSpeed a)
    then JS.ltb timeWithoutDelay 0
    else JS.ltb totalDuration timeWithoutDelay in
  let a := set_currentTime (Qmax timeWithoutDelay 0) a in
  let a :=
    if AnimationPlayState_eqb (state a) finished && is_null (holdTime a)
    then set_currentTime totalDuration a
    else a in
  (a, isInDelayPhase).

(** The time handed to the generator and the generator chosen, lines
    239-292. *)
Definition tickElapsed (a : JSAnimation) : Q * bool :=
  if negb (Options.repeat (options a) =? 0)%Z
  then repeatPhase a
  else (currentTime a, false).

(** The [done] that [tick] goes by, lines 307-314. *)
Definition tickDone (a : JSAnimation) (isInDelayPhase : bool)
  (state : AnimationState) : bool :=
  if negb isInDelayPhase && negb (is_null (calculatedDuration a))
  then (if JS.leb 0 (playbackSpeed a)
        then JS.leb (totalDuration a) (currentTime a)
        else JS.leb (currentTime a) 0)
  else done state.

(** [isAnimationFinished], lines 316-318. *)
Definition tickFinished (a : JSAnimation) (done : bool) : bool :=
  is_null (holdTime a)
  && (AnimationPlayState_eqb (state a) finished
      || (AnimationPlayState_eqb (state a) running && done)).

Definition tick (timestamp : Q) (sample : bool) : M AnimationState :=
  a <- get ;;
  let mixKeyframes := mixKeyframes a in
  match startTime a with
  | None => generatorNext false 0
  | Some _ =>
    let keyframes := Options.keyframes (options a) in
    let type := Options.type (options a) in
    let onUpdate := Options.onUpdate (options a) in
    let finalKeyframe := Options.finalKeyframe (options a) in
    let '(a, isInDelayPhase) := tickClock timestamp sample a in
    modify (fun _ => a) ;;
    let '(elapsed, mirrored) := tickElapsed a in
    state <-
      (if isInDelayPhase
       then ret (mkAnimationState (index keyframes 0) false)
       else generatorNext mirrored elapsed) ;;
    let state :=
      match mixKeyframes with
      | Some f => set_value (f (value state)) state
      | None => state
      end in
    let isAnimationFinished :=
      tickFinished a (tickDone a isInDelayPhase state) in
    let state :=
      if isAnimationFinished
         && negb (match type with Some inertia => true | _ => false end)
      then set_value
             (getFinalKeyframe keyframes (options a) finalKeyframe (speed a))
             state
      else state in
    when onUpdate (emit (CallOnUpdate (value state))) ;;
    when isAnimationFinished finish ;;
    ret state
  end.

(** [get duration()] *)
Definition get_duration : M Q :=
  a <- get ;;
  ret (millisecondsToSeconds
         (match calculatedDuration a with Some d => d | None => 0 end)).


(** [set time(newTime)] *)
Definition set_time (newTime : Q) : M unit :=
  let newTime := secondsToMilliseconds newTime in
  modify (set_currentTime newTime) ;;
  a <- get ;;
  (if is_null (startTime a) || negb (is_null (holdTime a))
      || JS.eqb (playbackSpeed a) 0
   then modify (set_holdTime (Some newTime))
   else if negb (is_null (driver a)) then
     now <- driverNow ;;
     modify (set_startTime (Some (now - newTime / playbackSpeed a)))
   else ret tt) ;;
  a <- get ;;
  when (negb (is_null (driver a))) (emit (DriverStart (Some false))).

(** [get speed()] *)
Definition get_speed : M Q :=
  a <- get ;;
  ret (playbackSpeed a).

(** [set speed(newSpeed)] *)
Definition set_speed (newSpeed : Q) : M unit :=
  now <- timeNow ;;
  updateTime now ;;
  a <- get ;;
  let hasChanged := negb (JS.eqb (playbackSpeed a) newSpeed) in
  modify (set_playbackSpeed newSpeed) ;;
  when hasChanged (set_time (millisecondsToSeconds (currentTime a))).

Definition play : M unit :=
  a <- get ;;
  if isStopped a then ret tt else
  when (is_null (driver a))
       (emit DriverCreate ;; modify (set_driver (Some driverControls))) ;;
  when (Options.onPlay (options a)) (emit CallOnPlay) ;;
  now <- driverNow ;;
  (if AnimationPlayState_eqb (state a) finished then
     emit UpdateFinished ;;
     modify (set_startTime (Some now))
   else
     match holdTime a with
     | Some h => modify (set_startTime (Some (now - h)))
     | None =>
         if match startTime a with None => true | Some s => JS.eqb s 0 end
         then modify (set_startTime
                        (Some (match Options.startTime (options a) with
                               | Some s => s
                               | None => now
                               end)))
         else ret tt
     end) ;;
  when (AnimationPlayState_eqb (state a) finished && JS.ltb (speed a) 0)
       (modify (fun a =>
                  set_startTime
                    (Some (match startTime a with Some s => s | None => 0 end
                           + match calculatedDuration a with
                             | Some d => d
                             | None => 0
                             end)) a)) ;;
  modify (set_holdTime None) ;;
  modify (set_state running) ;;
  emit (DriverStart None).

Definition pause : M unit :=
  modify (set_state paused) ;;
  now <- timeNow ;;
  updateTime now ;;
  modify (fun a => set_holdTime (Some (currentTime a)) a).

Definition stop : M unit :=
  a <- get ;;
  now <- timeNow ;;
  (match Options.motionValue (options a) with
   | Some updatedAt =>
       if negb (JS.eqb updatedAt now) then _ <- tick now false ;; ret tt
       else ret tt
   | None => ret tt
   end) ;;
  modify (set_isStopped true) ;;
  a <- get ;;
  if AnimationPlayState_eqb (state a) idle then ret tt else
  teardown ;;
  when (Options.onStop (options a)) (emit CallOnStop).

Definition complete : M unit :=
  a <- get ;;
  when (negb (AnimationPlayState_eqb (state a) running)) play ;;
  modify (set_state finished) ;;
  modify (set_holdTime None).

Definition cancel : M unit :=
  modify (set_holdTime None) ;;
  modify (set_startTime (Some 0)) ;;
  _ <- tick 0 false ;;
  teardown ;;
  a <- get ;;
  when (Options.onCancel (options a)) (emit CallOnCancel).

Definition sample (sampleTime : Q) : M AnimationState :=
  modify (set_startTime (Some 0)) ;;
  tick sampleTime true.

(** The field initialisers of the class.  The fields [initAnimation] assigns
    ([generator] and the three durations) have no initialiser; they are given
    placeholders that are overwritten before anything reads them. *)
Definition fieldInitialisers (options : Options.t) : JSAnimation :=
  mkJSAnimation idle None None false
    (mkGenerator (fun _ => mkAnimationState VUndefined false) None)
    None 0 0 options 0 None 1 None None.

(** [new JSAnimation(options)] *)
Definition constructor (options : Options.t) : M unit :=
  modify (fun _ => fieldInitialisers options) ;;
  incrMainThread ;;
  initAnimation ;;
  play ;;
  when (negb (Options.autoplay options)) pause.

End Engine.

(** The factory [initAnimation] selects: [type || keyframesGenerator]. *)
Definition selectedFactory (o : Options.t) : GeneratorFactory :=
  match Options.type o with Some f => f | None => keyframesGenerator end.

(** ** The environment: clocks and frames *)

(** The frame loop moves both clocks to the timestamp of the frame being
    processed. *)
Definition advanceClock (t : Q) : M unit :=
  fun w => (Normal tt, mkWorld (this w) (mainThread w) t t (trace w)).

(** The driver delivers a frame: the callback given to the driver factory in
    [play] is [(timestamp) => this.tick(timestamp)]. *)
Definition frame
  (getFinalKeyframe : list JSValue -> Options.t -> option JSValue -> Q -> JSValue)
  (timestamp : Q) : M unit :=
  advanceClock timestamp ;;
  _ <- tick getFinalKeyframe timestamp false ;;
  ret tt.

(** Engines as [initAnimation] leaves them: a mirror repeat comes with its
    mirrored generator. *)
Definition wellFormed (a : JSAnimation) : Prop :=
  Options.repeatType (options a) = Some mirror -> mirroredGenerator a <> None.

(** ** Sequences of calls

    What the outside can do to a constructed engine: call a public method,
    assign [time] or [speed], deliver a frame to [tick], or let the clocks
    move. *)
Inductive Call : Type :=
| Play
| Pause
| Stop
| Complete
| Cancel
| Tick (timestamp : Q)
| Sample (sampleTime : Q)
| SetTime (newTime : Q)
| SetSpeed (newSpeed : Q)
| Clocks (time driver : Q).

(** The clocks move on: [time.now()] and [driver.now()] read new values. *)
Definition setClocks (time driver : Q) : M unit :=
  fun w => (Normal tt, mkWorld (this w) (mainThread w) time driver (trace w)).

Definition perform
  (getFinalKeyframe : list JSValue -> Options.t -> option JSValue -> Q -> JSValue)
  (c : Call) : M unit :=
  match c with
  | Play => play
  | Pause => pause
  | Stop => stop getFinalKeyframe
  | Complete => complete
  | Cancel => cancel getFinalKeyframe
  | Tick timestamp => _ <- tick getFinalKeyframe timestamp false ;; ret tt
  | Sample sampleTime => _ <- sample getFinalKeyframe sampleTime ;; ret tt
  | SetTime newTime => set_time newTime
  | SetSpeed newSpeed => set_speed newSpeed
  | Clocks time driver => setClocks time driver
  end.

Fixpoint performAll
  (getFinalKeyframe : list JSValue -> Options.t -> option JSValue -> Q -> JSValue)
  (calls : list Call) : M unit :=
  match calls with
  | [] => ret tt
  | c :: calls =>
      perform getFinalKeyframe c ;; performAll getFinalKeyframe calls
  end.

(** What [initAnimation] computes and nothing else assigns. *)
Definition sameConfiguration (a b : JSAnimation) : Prop :=
  options a = options b
  /\ generator a = generator b
  /\ mirroredGenerator a = mirroredGenerator b
  /\ mixKeyframes a = mixKeyframes b
  /\ calculatedDuration a = calculatedDuration b
  /\ resolvedDuration a = resolvedDuration b
  /\ totalDuration a = totalDuration b.

(** How the play state, the driver and the two times hang together. *)
Definition consistent (a : JSAnimation) : Prop :=
  (state a = running -> driver a <> None /\ startTime a <> None)
  /\ (state a = paused -> holdTime a <> None)
  /\ (state a = idle -> driver a = None)
  /\ (isStopped a = true -> driver a = None).

(** A computation is safe when, from a well-formed and consistent engine,
    it returns normally, keeps the configuration and the consistency, and
    does not raise the counter. *)
Definition safe {A} (m : M A) : Prop :=
  forall w,
    wellFormed (this w) -> consistent (this w) ->
    (exists x, fst (m w) = Normal x)
    /\ sameConfiguration (this (snd (m w))) (this w)
    /\ consistent (this (snd (m w)))
    /\ (mainThread (snd (m w)) <= mainThread w)%Z.

(** ** A tick in closed form

    What one call of [tick] amounts to once [startTime] is set, phase by
    phase; [tick_outcome] below proves that running [tick] yields exactly
    this. *)

(** The engine after the clock part of [tick], and whether the tick falls in
    the delay phase. *)
Definition tickTime (timestamp : Q) (sample : bool) (a : JSAnimation)
  : JSAnimation :=
  fst (tickClock timestamp sample a).

Definition isInDelayPhase (timestamp : Q) (sample : bool) (a : JSAnimation)
  : bool :=
  snd (tickClock timestamp sample a).

(** The sample [tick] works on: synthesised in the delay phase, else read
    from generator [g]; then passed through the mixer when one is set. *)
Definition tickSample (a : JSAnimation) (isInDelayPhase : bool)
  (g : KeyframeGenerator) (elapsed : Q) : AnimationState :=
  let state :=
    if isInDelayPhase
    then mkAnimationState (nth 0 (Options.keyframes (options a)) VUndefined) false
    else next g elapsed in
  match mixKeyframes a with
  | Some f => set_value (f (value state)) state
  | None => state
  end.

(** The sample [tick] returns: the final keyframe replaces the value when the
    animation is finished and its type is not inertia. *)
Definition tickResult
  (getFinalKeyframe : list JSValue -> Options.t -> option JSValue -> Q -> JSValue)
  (a : JSAnimation) (isAnimationFinished : bool) (state : AnimationState)
  : AnimationState :=
  if isAnimationFinished
     && negb (match Options.type (options a) with
              | Some inertia => true
              | _ => false
              end)
  then set_value
         (getFinalKeyframe (Options.keyframes (options a)) (options a)
            (Options.finalKeyframe (options a)) (playbackSpeed a))
         state
  else state.

(** The object [finish] leaves behind. *)
Definition finishedObject (a : JSAnimation) : JSAnimation :=
  set_state finished
    (set_startTime None
       (set_holdTime None
          (match driver a with
           | Some _ => set_driver None (set_state idle a)
           | None => set_state idle a
           end))).

(** The calls [finish] makes. *)
Definition finishEvents (a : JSAnimation) : list Event :=
  [NotifyFinished]
  ++ (if is_null (driver a) then [] else [DriverStop])
  ++ (if Options.onComplete (options a) then [CallOnComplete] else []).

(** The calls [tick] makes. *)
Definition tickEvents (a : JSAnimation) (isInDelayPhase mirrored : bool)
  (elapsed : Q) (isAnimationFinished : bool) (result : AnimationState)
  : list Event :=
  (if isInDelayPhase then [] else [GeneratorNext mirrored elapsed])
  ++ (if Options.onUpdate (options a) then [CallOnUpdate (value result)] else [])
  ++ (if isAnimationFinished then finishEvents a else []).

(** ** The repeat arithmetic as the specification words it *)

Module RepeatSpec.

Section Iteration.

Variables currentTime totalDuration resolvedDuration repeatDelay : Q.
Variable repeat : Z.
Variable repeatType : option RepeatType.

(** progress = min(currentTime, totalDuration) / resolvedDuration *)
Definition progress : Q := Qmin currentTime totalDuration / resolvedDuration.

(** "progress is a whole number >= 1" *)
Definition endOfCycle : bool :=
  Qeq_bool (inject_Z (Qfloor progress)) progress && Qle_bool 1 progress.

(** iteration = floor(progress), the end-of-cycle boundary belonging to the
    prior iteration, clamped to at most repeat + 1 *)
Definition iteration : Z :=
  Z.min (if endOfCycle then Qfloor progress - 1 else Qfloor progress)
        (repeat + 1).

(** iterationProgress = progress mod 1, promoted to exactly 1 at an
    end-of-cycle boundary *)
Definition iterationProgress : Q :=
  if endOfCycle then 1 else JS.rem1 progress.

(** On odd iterations "reverse" flips the progress and takes the
    repeat-delay fraction off. *)
Definition directedProgress : Q :=
  if Z.odd iteration then
    match repeatType with
    | Some reverse => 1 - iterationProgress - repeatDelay / resolvedDuration
    | _ => iterationProgress
    end
  else iterationProgress.

(** On odd iterations "mirror" samples the mirrored generator instead. *)
Definition mirrored : bool :=
  Z.odd iteration
  && match repeatType with Some mirror => true | _ => false end.

(** clamp01 *)
Definition clamp01 (x : Q) : Q := Qmax 0 (Qmin 1 x).

(** elapsed = clamp01(iterationProgress) * resolvedDuration *)
Definition elapsed : Q := clamp01 directedProgress * resolvedDuration.

End Iteration.

End RepeatSpec.

(** ** Concrete collaborators for worked examples *)

Module Fixture.

(** A two-point linear generator in the manner of the keyframes generator:
    the value runs from [from] to [to] over [duration] milliseconds and
    [done] is [t >= duration]. *)
Definition linear (from to duration : Q) : KeyframeGenerator :=
  mkGenerator
    (fun t => mkAnimationState
                (VNumber (Qred (from + (to - from) * clamp 0 1 (t / duration))))
                (JS.leb duration t))
    (Some duration).

Definition numberOf (v : JSValue) : Q :=
  match v with VNumber n => n | _ => 0 end.

(** Every factory builds the linear generator between the first and the last
    keyframe, lasting [duration]. *)
Definition runFactory (duration : Q) (_ : GeneratorFactory) (o : Options.t)
  : KeyframeGenerator :=
  linear (numberOf (hd VUndefined (Options.keyframes o)))
         (numberOf (last (Options.keyframes o) VUndefined))
         duration.

Definition calcGeneratorDuration (_ : KeyframeGenerator) : Q := 0.

(** Modelled from the spec: [getFinalKeyframe] of keyframes/get-final is not
    among the sources; section 4.3 and the tests give the first keyframe when
    the speed is negative or an odd number of non-loop repeats ends on it,
    the last keyframe otherwise, and an explicit final keyframe in place of
    the last. *)
Definition getFinalKeyframe (keyframes : list JSValue) (o : Options.t)
  (finalKeyframe : option JSValue) (speed : Q) : JSValue :=
  let resolvedKeyframes :=
    filter (fun v => match v with VNull => false | _ => true end) keyframes in
  let useFirstKeyframe :=
    JS.ltb speed 0
    || (negb (Options.repeat o =? 0)%Z
        && match Options.repeatType o with
           | Some reverse | Some mirror => true
           | _ => false
           end
        && (Z.rem (Options.repeat o) 2 =? 1)%Z) in
  let index :=
    if useFirstKeyframe then 0%nat else (List.length resolvedKeyframes - 1)%nat in
  match index, finalKeyframe with
  | S _, Some final => final
  | _, _ => nth index resolvedKeyframes VUndefined
  end.

Definition mix (_ _ : JSValue) (p : Q) : JSValue := VNumber p.
Definition toNumber (_ : JSValue) : Q := 0.
Definition toString (_ : JSValue) : string := "?".

(** [{ keyframes: [0, 1], onUpdate }] *)
Definition plain : Options.t :=
  Options.mk [VNumber 0; VNumber 1] None 0 0 None 0 0 true None None None
             false true false false false.

(** [{ keyframes: [0, 1], repeat, repeatType, repeatDelay, delay, onUpdate }] *)
Definition repeating (repeat : Z) (repeatType : option RepeatType)
  (repeatDelay delay : Q) : Options.t :=
  Options.mk [VNumber 0; VNumber 1] None repeat repeatDelay repeatType 0 delay
             true None None None false true false false false.

(** A process in which no animation is active and both clocks read [t]. *)
Definition world (t : Q) : World :=
  mkWorld (fieldInitialisers plain) 0 t t [].

(** An object whose fields hold their initialisers and the given options,
    as [initAnimation] finds it when the constructor calls it. *)
Definition uninitialised (options : Options.t) : World :=
  mkWorld (fieldInitialisers options) 1 0 0 [].

(** [initAnimation()] in a development build, the generator lasting
    [duration]. *)
Definition init (duration : Q) : M unit :=
  initAnimation (runFactory duration) calcGeneratorDuration mix toNumber
                toString false.

(** [new JSAnimation(options)] in a development build, the generator lasting
    [duration]. *)
Definition new (duration : Q) (options : Options.t) : M unit :=
  constructor (runFactory duration) calcGeneratorDuration mix toNumber toString
              false options.

(** The world after [new JSAnimation({ keyframes: [0, 1] })] at clock 1000
    followed by [stop()]: the engine is idle and its start time is unset. *)
Definition stopped : World :=
  Eval vm_compute in snd ((new 300 plain ;; stop getFinalKeyframe) (world 1000)).

(** The driver's callback: a frame with the given timestamp. *)
Definition frame (timestamp : Q) : M unit :=
  frame getFinalKeyframe timestamp.

(** The world after [new JSAnimation({ keyframes: [0, 1] })] at clock 1000,
    a frame at 1100 and [pause()]. *)
Definition pausedAt100 : World :=
  Eval vm_compute in snd ((new 300 plain ;; frame 1100 ;; pause) (world 1000)).

(** The world after
    [new JSAnimation({ keyframes: [0, 1], repeat: 1, delay: 100 })] at clock
    1000: two cycles of 300 ms that start after 100 ms. *)
Definition delayed : World :=
  Eval vm_compute in snd (new 300 (repeating 1 None 0 100) (world 1000)).


(** The world after [new JSAnimation({ keyframes: [0, 1], repeat: 1 })] at
    clock 1000: two cycles of 300 ms. *)
Definition looping : World :=
  Eval vm_compute in snd (new 300 (repeating 1 None 0 0) (world 1000)).

(** The world after [new JSAnimation({ keyframes: [0, 1] })] at clock 1000:
    the engine is running from 1000. *)
Definition started : World :=
  Eval vm_compute in snd (new 300 plain (world 1000)).



(** The world after [new JSAnimation({ keyframes: [0, 1] })] at clock 1000
    and the clocks moved on to 1100. *)
Definition startedAt1100 : World :=
  Eval vm_compute in
    snd ((new 300 plain ;; advanceClock 1100) (world 1000)).

(** A session on an engine: a frame, a pause, a seek, a resume, a late frame
    that finishes the animation, then [cancel()] and [stop()]. *)
Definition session : list Call :=
  [Tick 1100; Pause; SetTime (1 # 10); Play; Clocks 1500 1500; Tick 1500;
   Cancel; Stop].

(** [{ keyframes: [0, 1, 2], type: spring }] *)
Definition threeSprings : Options.t :=
  Options.mk [VNumber 0; VNumber 1; VNumber 2] (Some spring) 0 0 None 0 0 true
             None None None false true false false false.

End Fixture.

(** ** scrapeMotionValuesFromProps (render/html/utils/scrape-motion-values) *)

Module Scrape.

Section Scrape.

(** The values a style object holds; what they are is immaterial here. *)
Variable V : Type.

(** A JavaScript object with string keys, in insertion order, the order in
    which [for ... in] visits them.  A well-formed object has no key
    twice. *)
Definition Obj : Type := list (string * V).

(** [obj[key]]: [None] is [undefined]. *)
Fixpoint obj_get (key : string) (obj : Obj) : option V :=
  match obj with
  | [] => None
  | (k, v) :: rest => if String.eqb k key then Some v else obj_get key rest
  end.

(** [obj[key] = v]: an existing key keeps its place, a new key goes last. *)
Fixpoint obj_set (key : string) (v : V) (obj : Obj) : Obj :=
  match obj with
  | [] => [(key, v)]
  | (k, v') :: rest =>
      if String.eqb k key then (k, v) :: rest
      else (k, v') :: obj_set key v rest
  end.

(** The keys [for (const key in obj)] visits. *)
Definition keys (obj : Obj) : list string := map fst obj.

(** [MotionProps], as far as the function reads it: [style] may be
    undefined. *)
Record MotionProps : Type := mkMotionProps {
  style : option Obj
}.

(** What [visualElement.getValue(key)] returns: a motion value, of which
    only [liveStyle] is read. *)
Record MotionValue : Type := mkMotionValue {
  liveStyle : option V
}.

Record VisualElement : Type := mkVisualElement {
  getValue : string -> option MotionValue
}.

(** [isMotionValue] of motion-dom and [isForcedMotionValue] are imported;
    they are kept abstract.  [isMotionValue] is also applied to
    [prevProps.style[key]], which may be undefined. *)
Variable isMotionValue : option V -> bool.
Variable isForcedMotionValue : string -> MotionProps -> bool.

(** [visualElement?.getValue(key)?.liveStyle !== undefined] *)
Definition hasLiveStyle (visualElement : option VisualElement) (key : string)
  : bool :=
  match visualElement with
  | None => false
  | Some ve =>
      match getValue ve key with
      | None => false
      | Some mv =>
          match liveStyle mv with None => false | Some _ => true end
      end
  end.

(** The condition of the [if] in the loop. *)
Definition scraped (props prevProps : MotionProps)
  (visualElement : option VisualElement) (styleObj : Obj) (key : string)
  : bool :=
  isMotionValue (obj_get key styleObj)
  || match style prevProps with
     | Some prevStyle => isMotionValue (obj_get key prevStyle)
     | None => false
     end
  || isForcedMotionValue key props
  || hasLiveStyle visualElement key.

Definition scrapeMotionValuesFromProps (props prevProps : MotionProps)
  (visualElement : option VisualElement) : Obj :=
  match style props with
  | None => []
  | Some styleObj =>
      fold_left
        (fun newValues key =>
           if scraped props prevProps visualElement styleObj key
           then match obj_get key styleObj with
                | Some v => obj_set key v newValues
                | None => newValues
                end
           else newValues)
        (keys styleObj) []
  end.

End Scrape.

Arguments obj_get {V} key obj.
Arguments obj_set {V} key v obj.
Arguments keys {V} obj.
Arguments style {V} m.
Arguments liveStyle {V} m.
Arguments getValue {V} v.
Arguments hasLiveStyle {V} visualElement key.
Arguments scraped {V}.
Arguments scrapeMotionValuesFromProps {V}.

End Scrape.
(** * Properties *)

(** ** Running the monad *)

Ltac run :=
  cbv beta iota delta
    [bind ret throw modify emit get when incrMainThread decrMainThread
     timeNow driverNow invariant updateTime advanceClock fst snd].

(** Case analysis on the scrutinee of an innermost [match] or [if]. *)
Ltac case_match :=
  match goal with
  | H : ?c = _ |- context [match ?c with _ => _ end] => rewrite H
  | |- context [match ?c with _ => _ end] =>
      lazymatch c with
      | context [match _ with _ => _ end] => fail
      | _ => destruct c eqn:?
      end
  end.

Ltac cases := repeat (cbn; case_match); cbn.

(** The pure phases of [tick] are reasoned about through their lemmas. *)
Arguments tickClock : simpl never.
Arguments tickElapsed : simpl never.
Arguments tickDone : simpl never.
Arguments tickFinished : simpl never.
Arguments repeatPhase : simpl never.

(** ** isNone *)

(** C10.  [isNone value] is [true] exactly when [value] is [null], the number
    [0], or a string that is ["none"], ["0"] or a zero-value string; for every
    other number and every other string it is [false]. *)
Theorem isNone_characterisation :
  forall (isZeroValueString : string -> bool) (value : StringNumberNull),
    (isNone isZeroValueString value = true <->
     value = SNNull
     \/ (exists n, value = SNNumber n /\ n == 0)
     \/ (exists s, value = SNString s
                   /\ (s = "none"%string \/ s = "0"%string
                       \/ isZeroValueString s = true)))
    /\ (isNone isZeroValueString value = false <->
        (exists n, value = SNNumber n /\ ~ n == 0)
        \/ (exists s, value = SNString s
                      /\ s <> "none"%string /\ s <> "0"%string
                      /\ isZeroValueString s = false)).
Proof.
  intros izv value; split; split.
  - destruct value as [n | s |]; simpl; intro H.
    + right; left; exists n; split; [reflexivity | now apply Qeq_bool_iff].
    + right; right; exists s; split; [reflexivity |].
      apply orb_true_iff in H; destruct H as [H | H].
      * apply orb_true_iff in H; destruct H as [H | H].
        -- left; now apply String.eqb_eq.
        -- right; left; now apply String.eqb_eq.
      * right; right; exact H.
    + left; reflexivity.
  - intros [-> | [(n & -> & Hn) | (s & -> & Hs)]]; simpl.
    + reflexivity.
    + now apply Qeq_bool_iff.
    + destruct Hs as [-> | [-> | Hs]].
      * reflexivity.
      * reflexivity.
      * rewrite Hs; now rewrite orb_true_r.
  - destruct value as [n | s |]; simpl; intro H.
    + left; exists n; split; [reflexivity | now apply Qeq_bool_neq].
    + right; exists s; split; [reflexivity |].
      apply orb_false_iff in H; destruct H as [H Hz].
      apply orb_false_iff in H; destruct H as [Hn H0].
      repeat split; [now apply String.eqb_neq | now apply String.eqb_neq | exact Hz].
    + discriminate.
  - intros [(n & -> & Hn) | (s & -> & Hn & H0 & Hz)]; simpl.
    + unfold JS.eqb. destruct (Qeq_bool n 0) eqn:E; [| reflexivity].
      exfalso; apply Hn; now apply Qeq_bool_iff.
    + apply String.eqb_neq in Hn, H0. now rewrite Hn, H0, Hz.
Qed.

(** ** tick before the start time is set *)

(** C8.  While [startTime] is [null], [tick] with any timestamp returns the
    generator's sample at [0] and leaves the object, hence [state],
    [currentTime], [startTime], [holdTime] and [playbackSpeed], and the
    active-animation counter as they were; the only call made is
    [generator.next(0)]. *)
Theorem tick_before_start :
  forall getFinalKeyframe (timestamp : Q) (sample : bool) (w : World),
    startTime (this w) = None ->
    let r := tick getFinalKeyframe timestamp sample w in
    fst r = Normal (next (generator (this w)) 0)
    /\ this (snd r) = this w
    /\ mainThread (snd r) = mainThread w
    /\ trace (snd r) = trace w ++ [GeneratorNext false 0].
Proof.
  intros gfk timestamp sample w Hstart.
  unfold tick, generatorNext, frameGenerator. run. rewrite Hstart. cbn.
  repeat split; reflexivity.
Qed.

Lemma tick_before_start_witness :
  startTime (this Fixture.stopped) = None
  /\ fst (tick Fixture.getFinalKeyframe 1100 false Fixture.stopped)
     = Normal (mkAnimationState (VNumber 0) false).
Proof.
  split; [reflexivity |].
  apply (tick_before_start Fixture.getFinalKeyframe 1100 false Fixture.stopped).
  reflexivity.
Defined.

(** ** initAnimation *)

Section InitAnimation.

Variable runFactory : GeneratorFactory -> Options.t -> KeyframeGenerator.
Variable calcGeneratorDuration : KeyframeGenerator -> Q.
Variable mix : JSValue -> JSValue -> Q -> JSValue.
Variable toNumber : JSValue -> Q.
Variable toString : JSValue -> string.

Lemma GeneratorFactory_eqb_eq :
  forall f g, GeneratorFactory_eqb f g = true <-> f = g.
Proof.
  intros f g; split.
  - destruct f, g; simpl; try discriminate; try reflexivity.
    intro H; apply Nat.eqb_eq in H; now subst.
  - intros ->; destruct g; simpl; try reflexivity. apply Nat.eqb_refl.
Qed.

(** C9.  In a development build [initAnimation] throws the two-keyframes
    assertion if and only if the selected factory is not the keyframes
    generator and more than two keyframes are supplied; the message ends with
    the offending keyframes.  With the keyframes generator, or with at most
    two keyframes, it returns normally. *)
Theorem initAnimation_two_keyframes_assertion :
  forall (w : World),
    let o := options (this w) in
    let r := initAnimation runFactory calcGeneratorDuration mix toNumber
                           toString false w in
    ((selectedFactory o <> keyframesGenerator
      /\ (2 < List.length (Options.keyframes o))%nat) ->
     fst r = Throw (InvariantError
                      ("Only two keyframes currently supported with spring and inertia animations. Trying to animate "
                       ++ keyframesToString toString (Options.keyframes o))
                      "spring-two-frames"))
    /\ ((selectedFactory o = keyframesGenerator
         \/ (List.length (Options.keyframes o) <= 2)%nat) ->
        fst r = Normal tt)
    /\ ((exists e, fst r = Throw e) <->
        (selectedFactory o <> keyframesGenerator
         /\ (2 < List.length (Options.keyframes o))%nat)).
Proof.
  intros w o r.
  assert (Hthrow :
    selectedFactory o <> keyframesGenerator
    /\ (2 < List.length (Options.keyframes o))%nat ->
    fst r = Throw (InvariantError
                     (twoKeyframesMessage toString (Options.keyframes o))
                     "spring-two-frames")).
  { intros [Hf Hlen]. subst r o. unfold initAnimation, selectedFactory in *.
    run. cbn.
    destruct (GeneratorFactory_eqb _ keyframesGenerator) eqn:E.
    - apply GeneratorFactory_eqb_eq in E. contradiction.
    - cbn. destruct (Nat.leb_spec (List.length (Options.keyframes (options (this w)))) 2).
      + lia.
      + reflexivity. }
  assert (Hnormal :
    selectedFactory o = keyframesGenerator
    \/ (List.length (Options.keyframes o) <= 2)%nat ->
    fst r = Normal tt).
  { intros Hc. subst r o. unfold initAnimation, selectedFactory in *.
    run. cbn.
    destruct (GeneratorFactory_eqb _ keyframesGenerator) eqn:E; cbn.
    - destruct (Options.repeatType (options (this w))) as [[] |]; reflexivity.
    - assert (Hlen : (List.length (Options.keyframes (options (this w))) <=? 2)%nat = true).
      { apply Nat.leb_le. destruct Hc as [Hc | Hc]; [| exact Hc].
        apply GeneratorFactory_eqb_eq in Hc. congruence. }
      rewrite Hlen. cbn.
      destruct (isNumber _); cbn;
        destruct (Options.repeatType (options (this w))) as [[] |]; reflexivity. }
  split; [exact Hthrow |]. split; [exact Hnormal |].
  split.
  - intros [e He].
    destruct (GeneratorFactory_eqb (selectedFactory o) keyframesGenerator) eqn:E.
    + apply GeneratorFactory_eqb_eq in E.
      rewrite (Hnormal (or_introl E)) in He. discriminate.
    + assert (Hf : selectedFactory o <> keyframesGenerator).
      { intro Hf. apply GeneratorFactory_eqb_eq in Hf. congruence. }
      split; [exact Hf |].
      destruct (le_lt_dec (List.length (Options.keyframes o)) 2) as [Hle | Hlt];
        [| exact Hlt].
      rewrite (Hnormal (or_intror Hle)) in He. discriminate.
  - intro Hc. eexists. apply (Hthrow Hc).
Qed.


End InitAnimation.


(** C2 fails as stated: a generator that reports a negative duration, with
    one repeat and no repeat delay, gets a [totalDuration] of [-200], below
    its [calculatedDuration] of [-100]. *)
Lemma initAnimation_total_below_calculated :
  let o := Fixture.repeating 1 None 0 0 in
  let r := Fixture.init (-100) (Fixture.uninitialised o) in
  (0 <= Options.repeat o)%Z
  /\ 0 <= Options.repeatDelay o
  /\ fst r = Normal tt
  /\ calculatedDuration (this (snd r)) = Some (-100)
  /\ totalDuration (this (snd r)) == -200
  /\ ~ -100 <= totalDuration (this (snd r)).
Proof.
  cbn. repeat split; try reflexivity; try lia; try lra.
  intro H. vm_compute in H. apply H. reflexivity.
Qed.

(** ** Seeking *)



(** ** The repeat arithmetic of tick *)

Lemma ltb_spec : forall x y, reflect (x < y) (JS.ltb x y).
Proof.
  intros x y. unfold JS.ltb.
  destruct (Qle_bool y x) eqn:E; constructor.
  - apply Qle_bool_iff in E. lra.
  - apply Qnot_le_lt. intro H. apply Qle_bool_iff in H. congruence.
Qed.

Lemma leb_spec : forall x y, reflect (x <= y) (JS.leb x y).
Proof.
  intros x y. unfold JS.leb.
  destruct (Qle_bool x y) eqn:E; constructor.
  - now apply Qle_bool_iff.
  - intro H. apply Qle_bool_iff in H. congruence.
Qed.

Lemma eqb_spec : forall x y, reflect (x == y) (JS.eqb x y).
Proof.
  intros x y. unfold JS.eqb.
  destruct (Qeq_bool x y) eqn:E; constructor.
  - now apply Qeq_bool_iff.
  - now apply Qeq_bool_neq.
Qed.

Lemma floor_bounds :
  forall x, inject_Z (Qfloor x) <= x /\ x < inject_Z (Qfloor x) + 1.
Proof.
  intro x. split; [apply Qfloor_le |].
  pose proof (Qlt_floor x) as H. rewrite inject_Z_plus in H. exact H.
Qed.

Lemma ceiling_bounds :
  forall x, inject_Z (Qceiling x) - 1 < x /\ x <= inject_Z (Qceiling x).
Proof.
  intro x. split; [| apply Qle_ceiling].
  pose proof (Qceiling_lt x) as H.
  unfold Z.sub in H. rewrite inject_Z_plus in H. exact H.
Qed.

(** The remainder of a division by one lies strictly between [-1] and [1]:
    [x % 1.0] is never [1]. *)
Lemma rem1_bounds : forall x, -1 < JS.rem1 x /\ JS.rem1 x < 1.
Proof.
  intro x. unfold JS.rem1, JS.trunc.
  pose proof (floor_bounds x). pose proof (ceiling_bounds x).
  destruct (ltb_spec x 0); lra.
Qed.

Lemma rem1_nonneg : forall x, 0 <= x -> JS.rem1 x == x - inject_Z (Qfloor x).
Proof.
  intros x Hx. unfold JS.rem1, JS.trunc.
  destruct (ltb_spec x 0); [lra | reflexivity].
Qed.

Lemma odd_spec : forall n, JS.odd n = Z.odd n.
Proof.
  intro n. unfold JS.odd. symmetry. apply Zodd_rem.
Qed.

Lemma clamp_unit : forall x, clamp 0 1 x == RepeatSpec.clamp01 x.
Proof.
  intro x. unfold clamp, RepeatSpec.clamp01.
  destruct (ltb_spec 1 x) as [H1 | H1].
  - rewrite (Q.min_l 1 x) by lra. rewrite Q.max_r by lra. reflexivity.
  - rewrite (Q.min_r 1 x) by lra.
    destruct (ltb_spec x 0) as [H0 | H0].
    + rewrite Q.max_l by lra. reflexivity.
    + rewrite Q.max_r by lra. reflexivity.
Qed.

Lemma clamp01_comp :
  forall x y, x == y -> RepeatSpec.clamp01 x == RepeatSpec.clamp01 y.
Proof.
  intros x y H. unfold RepeatSpec.clamp01.
  apply Q.max_compat; [reflexivity |].
  apply Q.min_compat; [reflexivity | exact H].
Qed.

(** The test [!iterationProgress && progress >= 1] of the source is the
    specification's "progress is a whole number >= 1". *)
Lemma promotion_test :
  forall p,
    negb (JS.truthy (JS.rem1 p)) && JS.leb 1 p
    = Qeq_bool (inject_Z (Qfloor p)) p && Qle_bool 1 p.
Proof.
  intro p. unfold JS.truthy, JS.leb. rewrite negb_involutive.
  destruct (Qle_bool 1 p) eqn:E; [| now rewrite !andb_false_r].
  rewrite !andb_true_r. apply Qle_bool_iff in E.
  destruct (Qeq_bool (inject_Z (Qfloor p)) p) eqn:Hw.
  - apply Qeq_bool_iff in Hw. apply Qeq_bool_iff.
    rewrite rem1_nonneg by lra. lra.
  - apply Qeq_bool_neq in Hw.
    destruct (Qeq_bool (JS.rem1 p) 0) eqn:E0; [| reflexivity].
    apply Qeq_bool_iff in E0. rewrite rem1_nonneg in E0 by lra.
    exfalso. apply Hw. lra.
Qed.

(** The repeat block of [tick] computes the time and the generator the
    specification describes. *)
Lemma repeatPhase_spec :
  forall a,
    let o := options a in
    fst (repeatPhase a)
    == RepeatSpec.elapsed (currentTime a) (totalDuration a)
         (resolvedDuration a) (Options.repeatDelay o) (Options.repeat o)
         (Options.repeatType o)
    /\ snd (repeatPhase a)
       = RepeatSpec.mirrored (currentTime a) (totalDuration a)
           (resolvedDuration a) (Options.repeat o) (Options.repeatType o).
Proof.
  intros a o.
  unfold repeatPhase, RepeatSpec.elapsed, RepeatSpec.mirrored,
    RepeatSpec.directedProgress, RepeatSpec.iteration,
    RepeatSpec.iterationProgress, RepeatSpec.endOfCycle, RepeatSpec.progress.
  fold o. cbv zeta.
  set (p := Qmin (currentTime a) (totalDuration a) / resolvedDuration a).
  rewrite promotion_test. rewrite odd_spec. unfold JS.floor.
  set (E := Qeq_bool (inject_Z (Qfloor p)) p && Qle_bool 1 p).
  assert (Hiter :
    (if JS.eqb (if E then 1 else JS.rem1 p) 1
     then (Qfloor p - 1)%Z else Qfloor p)
    = (if E then (Qfloor p - 1)%Z else Qfloor p)).
  { destruct E; [reflexivity |].
    destruct (eqb_spec (JS.rem1 p) 1) as [H1 | H1]; [| reflexivity].
    pose proof (rem1_bounds p). lra. }
  rewrite Hiter.
  set (i := Z.min (if E then (Qfloor p - 1)%Z else Qfloor p)
                  (Options.repeat o + 1)).
  set (ip := if E then 1 else JS.rem1 p).
  destruct (Z.odd i); cbn [andb].
  - destruct (Options.repeatType o) as [[| |] |]; cbn [fst snd].
    + split; [| reflexivity]. rewrite clamp_unit. reflexivity.
    + split; [| reflexivity]. rewrite clamp_unit.
      unfold JS.truthy.
      destruct (Qeq_bool (Options.repeatDelay o) 0) eqn:E0; cbn [negb].
      * apply Qeq_bool_iff in E0.
        assert (Heq : 1 - ip
                      == 1 - ip - Options.repeatDelay o / resolvedDuration a).
        { rewrite E0. unfold Qdiv. ring. }
        apply Qmult_comp; [| reflexivity]. now apply clamp01_comp.
      * reflexivity.
    + split; [| reflexivity]. rewrite clamp_unit. reflexivity.
    + split; [| reflexivity]. rewrite clamp_unit. reflexivity.
  - cbn [fst snd]. split; [| reflexivity]. rewrite clamp_unit. reflexivity.
Qed.

(** ** What a tick does *)

(** The clock part of [tick] assigns [startTime] and [currentTime] only. *)
Lemma tickClock_frame :
  forall timestamp sample a,
    let a' := tickTime timestamp sample a in
    state a' = state a /\ driver a' = driver a /\ isStopped a' = isStopped a
    /\ generator a' = generator a
    /\ calculatedDuration a' = calculatedDuration a
    /\ resolvedDuration a' = resolvedDuration a
    /\ totalDuration a' = totalDuration a
    /\ options a' = options a /\ holdTime a' = holdTime a
    /\ playbackSpeed a' = playbackSpeed a
    /\ mixKeyframes a' = mixKeyframes a
    /\ mirroredGenerator a' = mirroredGenerator a.
Proof.
  intros timestamp sample a. unfold tickTime, tickClock, updateTimeOf, speed.
  cases; repeat split; try reflexivity; try assumption.
Qed.

(** Only a mirror repeat selects the mirrored generator. *)
Lemma tickElapsed_mirrored :
  forall a,
    snd (tickElapsed a) = true ->
    Options.repeatType (options a) = Some mirror.
Proof.
  intros a. unfold tickElapsed.
  destruct (negb (Options.repeat (options a) =? 0)%Z); [| discriminate].
  destruct (repeatPhase_spec a) as [_ ->].
  unfold RepeatSpec.mirrored.
  destruct (Options.repeatType (options a)) as [[| |] |];
    rewrite ?andb_false_r; try discriminate. reflexivity.
Qed.

(** Running [tick] on a started, well-formed engine: it returns normally,
    and the returned sample, the calls made, the object and the counter are
    those of the closed form. *)
Lemma tick_outcome :
  forall getFinalKeyframe (timestamp : Q) (sample : bool) (w : World) st,
    startTime (this w) = Some st ->
    wellFormed (this w) ->
    let a := tickTime timestamp sample (this w) in
    let d := isInDelayPhase timestamp sample (this w) in
    let elapsed := fst (tickElapsed a) in
    let mirrored := snd (tickElapsed a) in
    exists g,
      (d = false -> frameGenerator a mirrored = Some g)
      /\ let state := tickSample a d g elapsed in
         let isAnimationFinished := tickFinished a (tickDone a d state) in
         let result := tickResult getFinalKeyframe a isAnimationFinished state in
         tick getFinalKeyframe timestamp sample w
         = (Normal result,
            mkWorld (if isAnimationFinished then finishedObject a else a)
                    (if isAnimationFinished
                     then (mainThread w - 1)%Z else mainThread w)
                    (time_now w) (driver_now w)
                    (trace w ++ tickEvents a d mirrored elapsed
                                           isAnimationFinished result)).
Proof.
  intros gfk ts sample w st Hst Hwf a d elapsed mirrored.
  pose proof (tickClock_frame ts sample (this w)) as Hfr. fold a in Hfr.
  destruct Hfr as (Hs & Hdr & _ & Hg & _ & _ & _ & Ho & Hh & Hsp & Hmk & Hmg).
  assert (Hgen : exists g, frameGenerator a mirrored = Some g).
  { unfold frameGenerator. destruct mirrored eqn:Em; [| eauto].
    destruct (mirroredGenerator a) as [g |] eqn:Eg; [eauto |].
    exfalso. apply Hwf; [| congruence].
    rewrite <- Ho. now apply tickElapsed_mirrored. }
  destruct Hgen as [g Hgen]. exists g. split; [intros _; exact Hgen |].
  cbv zeta. unfold tick. run. rewrite Hst.
  unfold tickTime, isInDelayPhase in *.
  destruct (tickClock ts sample (this w)) as [a0 d0] eqn:Eclock.
  cbn [fst snd] in *. subst a d.
  destruct (tickElapsed a0) as [el m] eqn:Eel.
  cbn [fst snd] in *. subst elapsed mirrored.
  unfold generatorNext, finish, teardown, stopDriver. run.
  unfold tickSample, tickResult, tickEvents, finishEvents, finishedObject, index, speed.
  rewrite <- Ho, <- Hmk.
  destruct d0; cbn; rewrite ?Hgen; cases;
    rewrite <- ?app_assoc; cbn; rewrite ?app_nil_r; try reflexivity.
Qed.

Lemma no_sample_after :
  forall a (isAnimationFinished : bool) result m t,
    ~ In (GeneratorNext m t)
         ((if Options.onUpdate (options a)
           then [CallOnUpdate (value result)] else [])
          ++ (if isAnimationFinished then finishEvents a else [])).
Proof.
  intros a fin result m t. unfold finishEvents.
  cases; intro H; repeat (destruct H as [H | H]; [discriminate |]); exact H.
Qed.



(** C1 fails as stated: with a delay of 100 ms and one repeat, the tick 50 ms
    after the start falls in the delay phase; it reports the first keyframe
    and samples no generator. *)
Lemma tick_in_delay_phase_samples_nothing :
  let w := Fixture.delayed in
  let r := tick Fixture.getFinalKeyframe 1050 false w in
  startTime (this w) = Some 1000
  /\ (0 < Options.repeat (options (this w)))%Z
  /\ fst r = Normal (mkAnimationState (VNumber 0) false)
  /\ trace (snd r) = trace w ++ [CallOnUpdate (VNumber 0)]
  /\ forall m t, ~ In (GeneratorNext m t) [CallOnUpdate (VNumber 0)].
Proof.
  vm_compute. repeat split; try reflexivity.
  intros m t [H | []]. discriminate.
Qed.

(** ** The done flag of a tick *)

(** C3, as amended.  In a tick outside the delay phase in which the
    generator's duration is known, the [done] value the engine goes by is
    recomputed from time bounds alone ([currentTime >= totalDuration] when
    [playbackSpeed >= 0], [currentTime <= 0] when [playbackSpeed < 0]),
    whatever the generator reported: the tick finishes the animation exactly
    when [holdTime] is null and the state is finished, or running with the
    time bound reached.  The [done] field of the sample that [tick] returns
    is left as the generator reported it. *)
Theorem tick_done_from_time_bounds :
  forall getFinalKeyframe (timestamp : Q) (sample : bool) (w : World)
         st duration,
    startTime (this w) = Some st ->
    calculatedDuration (this w) = Some duration ->
    wellFormed (this w) ->
    isInDelayPhase timestamp sample (this w) = false ->
    let a := tickTime timestamp sample (this w) in
    let timeBound :=
      if JS.leb 0 (playbackSpeed a)
      then JS.leb (totalDuration a) (currentTime a)
      else JS.leb (currentTime a) 0 in
    let r := tick getFinalKeyframe timestamp sample w in
    (forall state, tickDone a false state = timeBound)
    /\ (tickFinished a timeBound = true ->
        state (this (snd r)) = finished
        /\ mainThread (snd r) = (mainThread w - 1)%Z
        /\ In NotifyFinished (trace (snd r)))
    /\ (tickFinished a timeBound = false ->
        this (snd r) = a /\ mainThread (snd r) = mainThread w)
    /\ exists g s,
         frameGenerator a (snd (tickElapsed a)) = Some g
         /\ fst r = Normal s
         /\ done s = done (next g (fst (tickElapsed a))).
Proof.
  intros gfk ts sample w st duration Hst Hdur Hwf Hd a timeBound r.
  assert (Hknown : calculatedDuration a = Some duration).
  { rewrite <- Hdur. apply (tickClock_frame ts sample (this w)). }
  assert (Hdone : forall state, tickDone a false state = timeBound).
  { intro state. unfold tickDone. rewrite Hknown. reflexivity. }
  destruct (tick_outcome gfk ts sample w st Hst Hwf) as (g & Hg & Hrun).
  cbv zeta in Hrun. fold a in Hrun, Hg. rewrite Hd in Hrun, Hg.
  rewrite Hdone in Hrun. subst r. rewrite Hrun. cbn [fst snd this mainThread trace].
  split; [exact Hdone |]. split; [| split].
  - intros Hfin. rewrite Hfin. split; [reflexivity |]. split; [reflexivity |].
    apply in_or_app. right. unfold tickEvents, finishEvents.
    apply in_or_app. right. apply in_or_app. right. left. reflexivity.
  - intros Hfin. rewrite Hfin. split; reflexivity.
  - exists g. eexists. split; [apply Hg; reflexivity |].
    split; [reflexivity |].
    unfold tickResult, tickSample, set_value.
    destruct (mixKeyframes a); cases; reflexivity.
Qed.

Lemma tick_done_from_time_bounds_witness :
  startTime (this Fixture.looping) = Some 1000
  /\ calculatedDuration (this Fixture.looping) = Some 300
  /\ isInDelayPhase 1600 false (this Fixture.looping) = false
  /\ state (this (snd (tick Fixture.getFinalKeyframe 1600 false Fixture.looping)))
     = finished.
Proof.
  split; [reflexivity |]. split; [reflexivity |]. split; [reflexivity |].
  assert (Hwf : wellFormed (this Fixture.looping)).
  { intro H. discriminate H. }
  destruct (tick_done_from_time_bounds Fixture.getFinalKeyframe 1600 false
              Fixture.looping 1000 300 eq_refl eq_refl Hwf eq_refl)
    as (_ & H & _).
  assert (Hfinished :
    tickFinished (tickTime 1600 false (this Fixture.looping))
      (JS.leb (totalDuration (tickTime 1600 false (this Fixture.looping)))
              (currentTime (tickTime 1600 false (this Fixture.looping))))
    = true) by (vm_compute; reflexivity).
  destruct (H Hfinished) as (Hstate & _).
  exact Hstate.
Defined.

(** C3 fails as stated: with one repeat of a 300 ms cycle, the sample
    returned by the tick at 300 ms carries the [done] the generator reported,
    [true], although the time bound [currentTime >= totalDuration] is
    [300 >= 600], false, and the animation keeps running. *)
Lemma tick_returns_generator_done :
  let w := Fixture.looping in
  let r := tick Fixture.getFinalKeyframe 1300 false w in
  calculatedDuration (this w) = Some 300
  /\ isInDelayPhase 1300 false (this w) = false
  /\ JS.leb 0 (playbackSpeed (this (snd r))) = true
  /\ currentTime (this (snd r)) == 300
  /\ totalDuration (this (snd r)) == 600
  /\ JS.leb (totalDuration (this (snd r))) (currentTime (this (snd r))) = false
  /\ fst r = Normal (mkAnimationState (VNumber 1) true)
  /\ state (this (snd r)) = running.
Proof.
  vm_compute. repeat split; reflexivity.
Qed.

(** ** cancel *)

(** At time zero of an animation with a positive total duration the repeat
    arithmetic is in iteration [0], at progress [0], on the primary
    generator. *)
Lemma repeat_at_zero :
  forall ct total res rd rep rtype,
    ct == 0 -> 0 < total -> (0 <= rep)%Z ->
    RepeatSpec.elapsed ct total res rd rep rtype == 0
    /\ RepeatSpec.mirrored ct total res rep rtype = false.
Proof.
  intros ct total res rd rep rtype Hct Htot Hrep.
  unfold RepeatSpec.elapsed, RepeatSpec.mirrored, RepeatSpec.directedProgress,
    RepeatSpec.iteration, RepeatSpec.iterationProgress, RepeatSpec.endOfCycle.
  set (p := RepeatSpec.progress ct total res).
  assert (Hp : p == 0).
  { unfold p, RepeatSpec.progress. rewrite Q.min_l by lra. rewrite Hct.
    unfold Qdiv. ring. }
  clearbody p.
  assert (Hfl : Qfloor p = 0%Z).
  { rewrite (Qfloor_comp _ _ Hp). reflexivity. }
  assert (Hle : Qle_bool 1 p = false).
  { destruct (Qle_bool 1 p) eqn:E; [| reflexivity].
    apply Qle_bool_iff in E. exfalso. lra. }
  rewrite Hle, andb_false_r, Hfl.
  rewrite Z.min_l by lia. cbn [Z.odd andb].
  split; [| reflexivity].
  assert (Hrem : JS.rem1 p == 0).
  { rewrite rem1_nonneg by lra. rewrite Hfl. change (inject_Z 0) with 0. lra. }
  rewrite (clamp01_comp _ _ Hrem). unfold RepeatSpec.clamp01.
  rewrite Q.min_r by lra. rewrite Q.max_l by lra. ring.
Qed.

(** The clock part of the tick that [cancel] makes, on an engine that is not
    finished, plays forward and has no delay: time zero, outside the delay
    phase. *)
Lemma cancel_clock :
  forall a,
    state a <> finished -> 0 <= playbackSpeed a ->
    Options.delay (options a) == 0 ->
    let a1 := set_startTime (Some 0) (set_holdTime None a) in
    isInDelayPhase 0 false a1 = false
    /\ currentTime (tickTime 0 false a1) == 0.
Proof.
  intros a Hst Hsp Hdel a1. subst a1.
  assert (Hleb : JS.leb 0 (playbackSpeed a) = true).
  { destruct (leb_spec 0 (playbackSpeed a)); [reflexivity | contradiction]. }
  assert (Hltb : JS.ltb (playbackSpeed a) 0 = false).
  { destruct (ltb_spec (playbackSpeed a) 0); [exfalso; lra | reflexivity]. }
  assert (Hfin : AnimationPlayState_eqb (state a) finished = false).
  { destruct (state a); try reflexivity. contradiction. }
  unfold isInDelayPhase, tickTime, tickClock, updateTimeOf, speed. cbn.
  destruct (JS.ltb 0 (playbackSpeed a)); cbn;
    rewrite ?Hltb; cbn; rewrite ?Hleb, ?Hfin; cbn;
    change (JS.round (0 - 0)) with 0.
  all: split;
    [ destruct (ltb_spec (0 * playbackSpeed a - Options.delay (options a) * 1) 0);
      [exfalso; lra | reflexivity]
    | rewrite Q.max_l by lra; lra ].
Qed.

Lemma wellFormed_cancel_start :
  forall a, wellFormed a ->
            wellFormed (set_startTime (Some 0) (set_holdTime None a)).
Proof. intros a H. exact H. Qed.

(** Running [cancel] on a well-formed engine, in closed form: the tick at
    time zero, then the teardown. *)
Lemma cancel_outcome :
  forall getFinalKeyframe (w : World),
    wellFormed (this w) ->
    let a1 := set_startTime (Some 0) (set_holdTime None (this w)) in
    let a := tickTime 0 false a1 in
    let d := isInDelayPhase 0 false a1 in
    let elapsed := fst (tickElapsed a) in
    let mirrored := snd (tickElapsed a) in
    exists g,
      (d = false -> frameGenerator a mirrored = Some g)
      /\ let sampled := tickSample a d g elapsed in
         let isAnimationFinished := tickFinished a (tickDone a d sampled) in
         let result :=
           tickResult getFinalKeyframe a isAnimationFinished sampled in
         let r := cancel getFinalKeyframe w in
         fst r = Normal tt
         /\ state (this (snd r)) = idle
         /\ startTime (this (snd r)) = None
         /\ holdTime (this (snd r)) = None
         /\ driver (this (snd r)) = None
         /\ mainThread (snd r)
            = (if isAnimationFinished
               then mainThread w - 2 else mainThread w - 1)%Z
         /\ trace (snd r)
            = trace w
              ++ tickEvents a d mirrored elapsed isAnimationFinished result
              ++ (if isAnimationFinished || is_null (driver (this w))
                  then [] else [DriverStop])
              ++ (if Options.onCancel (options (this w))
                  then [CallOnCancel] else [])
         /\ sameConfiguration (this (snd r)) (this w).
Proof.
  intros gfk w Hwf a1 a d elapsed mirrored.
  set (w1 := mkWorld a1 (mainThread w) (time_now w) (driver_now w) (trace w)).
  destruct (tick_outcome gfk 0 false w1 0 eq_refl Hwf) as (g & Hg & Hrun).
  exists g. split; [exact Hg |].
  cbv zeta in Hrun |- *.
  change (this w1) with a1 in Hrun. fold a in Hrun.
  change (isInDelayPhase 0 false a1) with d in Hrun.
  change (fst (tickElapsed a)) with elapsed in Hrun |- *.
  change (snd (tickElapsed a)) with mirrored in Hrun |- *.
  pose proof (tickClock_frame 0 false a1) as Hfr. fold a in Hfr.
  destruct Hfr as (_ & Hdr & _ & Hgn & Hcd & Hrd & Htd & Ho & _ & _ & Hmk & Hmg).
  change (driver a1) with (driver (this w)) in Hdr.
  change (options a1) with (options (this w)) in Ho.
  change (generator a1) with (generator (this w)) in Hgn.
  change (calculatedDuration a1) with (calculatedDuration (this w)) in Hcd.
  change (resolvedDuration a1) with (resolvedDuration (this w)) in Hrd.
  change (totalDuration a1) with (totalDuration (this w)) in Htd.
  change (mixKeyframes a1) with (mixKeyframes (this w)) in Hmk.
  change (mirroredGenerator a1) with (mirroredGenerator (this w)) in Hmg.
  unfold cancel. run. cbn [this mainThread time_now driver_now trace].
  fold a1. fold w1. rewrite Hrun.
  unfold teardown, stopDriver. run.
  unfold finishedObject.
  clearbody a d elapsed mirrored. clear Hrun Hg.
  destruct a as [s0 st0 dr0 is0 g0 cd0 rd0 td0 o0 ct0 h0 ps0 mk0 mg0].
  cbn in Hdr, Ho, Hgn, Hcd, Hrd, Htd, Hmk, Hmg. subst.
  unfold sameConfiguration.
  destruct (tickFinished _ _) eqn:Efin; cbn;
    destruct (driver (this w)) eqn:Edr; cbn;
    destruct (Options.onCancel (options (this w))); cbn;
    repeat split; try reflexivity; try lia;
    rewrite <- ?app_assoc, ?app_nil_r; reflexivity.
Qed.

(** [cancel], from any well-formed engine, returns normally and leaves the
    engine idle with [startTime], [holdTime] and the driver cleared; it calls
    [onCancel] last when one is supplied.  The counter goes down by one for
    the teardown of [cancel] itself, and by one more when the tick at time
    zero finishes the animation, which it always does on a finished
    engine. *)
Theorem cancel_tears_down :
  forall getFinalKeyframe (w : World),
    wellFormed (this w) ->
    let r := cancel getFinalKeyframe w in
    fst r = Normal tt
    /\ state (this (snd r)) = idle
    /\ startTime (this (snd r)) = None
    /\ holdTime (this (snd r)) = None
    /\ driver (this (snd r)) = None
    /\ (mainThread (snd r) = (mainThread w - 1)%Z
        \/ mainThread (snd r) = (mainThread w - 2)%Z)
    /\ (state (this w) = finished ->
        mainThread (snd r) = (mainThread w - 2)%Z)
    /\ (Options.onCancel (options (this w)) = true ->
        exists events, trace (snd r) = trace w ++ events ++ [CallOnCancel]).
Proof.
  intros gfk w Hwf r.
  destruct (cancel_outcome gfk w Hwf) as (g & _ & H).
  cbv zeta in H. fold r in H.
  destruct H as (Hret & Hstate & Hstart & Hhold & Hdriver & Hcount & Htrace
                 & _).
  repeat (split; [assumption |]).
  split; [| split].
  - rewrite Hcount. destruct (tickFinished _ _); [right | left]; reflexivity.
  - intro Hfin. rewrite Hcount.
    pose proof (tickClock_frame 0 false
                  (set_startTime (Some 0) (set_holdTime None (this w)))) as Hfr.
    destruct Hfr as (Hs & _ & _ & _ & _ & _ & _ & _ & Hh & _).
    unfold tickFinished. rewrite Hs, Hh. cbn. rewrite Hfin. reflexivity.
  - intro Hcb. rewrite Htrace, Hcb.
    match goal with
    | |- context [trace w ++ ?A ++ ?B ++ [CallOnCancel]] => exists (A ++ B)
    end.
    rewrite <- app_assoc. reflexivity.
Qed.

Lemma cancel_tears_down_witness :
  wellFormed (this Fixture.pausedAt100)
  /\ state (this (snd (cancel Fixture.getFinalKeyframe Fixture.pausedAt100)))
     = idle
  /\ mainThread (snd (cancel Fixture.getFinalKeyframe Fixture.pausedAt100))
     = 0%Z.
Proof.
  assert (Hwf : wellFormed (this Fixture.pausedAt100)).
  { intro H. discriminate H. }
  split; [exact Hwf |].
  destruct (cancel_tears_down Fixture.getFinalKeyframe Fixture.pausedAt100 Hwf)
    as (_ & Hstate & _).
  split; [exact Hstate |]. vm_compute. reflexivity.
Defined.

(** On an engine that is not finished, plays forward, has no delay and no
    keyframe mixer, a non-negative repeat count, a known duration and a
    positive total duration, the tick [cancel] makes samples the primary
    generator at time zero and reports that sample's value to [onUpdate];
    the counter goes down by exactly one. *)
Theorem cancel_reports_initial_sample :
  forall getFinalKeyframe (w : World),
    wellFormed (this w) ->
    state (this w) <> finished ->
    0 <= playbackSpeed (this w) ->
    Options.delay (options (this w)) == 0 ->
    0 < totalDuration (this w) ->
    (0 <= Options.repeat (options (this w)))%Z ->
    mixKeyframes (this w) = None ->
    calculatedDuration (this w) <> None ->
    let r := cancel getFinalKeyframe w in
    exists t,
      t == 0
      /\ trace (snd r)
         = trace w
           ++ [GeneratorNext false t]
           ++ (if Options.onUpdate (options (this w))
               then [CallOnUpdate (value (next (generator (this w)) t))]
               else [])
           ++ (if is_null (driver (this w)) then [] else [DriverStop])
           ++ (if Options.onCancel (options (this w))
               then [CallOnCancel] else [])
      /\ mainThread (snd r) = (mainThread w - 1)%Z.
Proof.
  intros gfk w Hwf Hnf Hsp Hdel Htot Hrep Hmix Hcd r.
  destruct (cancel_outcome gfk w Hwf) as (g & Hg & H).
  cbv zeta in H, Hg. fold r in H.
  destruct H as (_ & _ & _ & _ & _ & Hcount & Htrace & _).
  set (a1 := set_startTime (Some 0) (set_holdTime None (this w))) in *.
  destruct (cancel_clock (this w) Hnf Hsp Hdel) as [Hd Hct]. fold a1 in Hd, Hct.
  pose proof (tickClock_frame 0 false a1) as Hfr.
  set (a := tickTime 0 false a1) in *.
  destruct Hfr as (Hs & Hdr & _ & Hgen & Hcda & _ & Htd & Ho & Hh & Hps & Hmk & _).
  change (state a1) with (state (this w)) in Hs.
  change (generator a1) with (generator (this w)) in Hgen.
  change (calculatedDuration a1) with (calculatedDuration (this w)) in Hcda.
  change (totalDuration a1) with (totalDuration (this w)) in Htd.
  change (options a1) with (options (this w)) in Ho.
  change (holdTime a1) with (@None Q) in Hh.
  change (playbackSpeed a1) with (playbackSpeed (this w)) in Hps.
  change (mixKeyframes a1) with (mixKeyframes (this w)) in Hmk.
  rewrite Hd in *.
  assert (Hel : fst (tickElapsed a) == 0 /\ snd (tickElapsed a) = false).
  { unfold tickElapsed.
    destruct (negb (Options.repeat (options a) =? 0)%Z); [| split; [exact Hct | reflexivity]].
    destruct (repeatPhase_spec a) as [Hf Hsn].
    rewrite Hf, Hsn. apply repeat_at_zero; [exact Hct | | ].
    - rewrite Htd. exact Htot.
    - rewrite Ho. exact Hrep. }
  destruct Hel as [Hel Hm]. rewrite Hm in *.
  assert (Hgg : g = generator (this w)).
  { specialize (Hg eq_refl). unfold frameGenerator in Hg. congruence. }
  subst g.
  assert (Hsample : tickSample a false (generator (this w)) (fst (tickElapsed a))
                    = next (generator (this w)) (fst (tickElapsed a))).
  { unfold tickSample. rewrite Hmk, Hmix. reflexivity. }
  rewrite Hsample in *.
  assert (Hfin : tickFinished a
                   (tickDone a false
                      (next (generator (this w)) (fst (tickElapsed a))))
                 = false).
  { unfold tickFinished, tickDone. rewrite Hs, Hh, Hcda, Hps, Htd.
    destruct (calculatedDuration (this w)); [| contradiction]. cbn.
    destruct (leb_spec 0 (playbackSpeed (this w))); [| contradiction].
    destruct (leb_spec (totalDuration (this w)) (currentTime a));
      [exfalso; lra |].
    rewrite andb_false_r.
    destruct (state (this w)); try reflexivity. contradiction. }
  rewrite Hfin in *.
  exists (fst (tickElapsed a)). split; [exact Hel |]. split; [| exact Hcount].
  rewrite Htrace. unfold tickEvents, tickResult. cbn [andb orb].
  rewrite Ho. rewrite <- !app_assoc. cbn [app]. reflexivity.
Qed.

Lemma cancel_reports_initial_sample_witness :
  state (this Fixture.pausedAt100) = paused
  /\ exists t,
       t == 0
       /\ In (GeneratorNext false t)
             (trace (snd (cancel Fixture.getFinalKeyframe Fixture.pausedAt100)))
       /\ mainThread (snd (cancel Fixture.getFinalKeyframe Fixture.pausedAt100))
          = 0%Z.
Proof.
  split; [reflexivity |].
  assert (Hwf : wellFormed (this Fixture.pausedAt100)).
  { intro H. discriminate H. }
  assert (Hnf : state (this Fixture.pausedAt100) <> finished).
  { intro H. discriminate H. }
  assert (Hsp : 0 <= playbackSpeed (this Fixture.pausedAt100)).
  { vm_compute. discriminate. }
  assert (Hdel : Options.delay (options (this Fixture.pausedAt100)) == 0).
  { vm_compute. reflexivity. }
  assert (Htot : 0 < totalDuration (this Fixture.pausedAt100)).
  { vm_compute. reflexivity. }
  assert (Hrep : (0 <= Options.repeat (options (this Fixture.pausedAt100)))%Z).
  { vm_compute. discriminate. }
  assert (Hcd : calculatedDuration (this Fixture.pausedAt100) <> None).
  { intro H. discriminate H. }
  destruct (cancel_reports_initial_sample Fixture.getFinalKeyframe
              Fixture.pausedAt100 Hwf Hnf Hsp Hdel Htot Hrep eq_refl Hcd)
    as (t & Ht & Htrace & Hcount).
  exists t. split; [exact Ht |]. split.
  - rewrite Htrace. apply in_or_app. right. left. reflexivity.
  - rewrite Hcount. vm_compute. reflexivity.
Defined.

(** ** Invariants of a constructed engine *)

Lemma sameConfiguration_refl : forall a, sameConfiguration a a.
Proof. intro a. repeat split. Qed.

Lemma sameConfiguration_trans :
  forall a b c,
    sameConfiguration a b -> sameConfiguration b c -> sameConfiguration a c.
Proof.
  unfold sameConfiguration. intros a b c H1 H2.
  destruct H1 as (? & ? & ? & ? & ? & ? & ?).
  destruct H2 as (? & ? & ? & ? & ? & ? & ?).
  repeat split; congruence.
Qed.

Lemma sameConfiguration_wellFormed :
  forall a b, sameConfiguration a b -> wellFormed b -> wellFormed a.
Proof.
  unfold sameConfiguration, wellFormed. intros a b (Ho & _ & Hm & _) H.
  rewrite Ho, Hm. exact H.
Qed.

(** Goals about an object built from the fields of [this w]. *)
Ltac fields w :=
  let a := fresh "a" in
  remember (this w) as a in *;
  destruct a;
  unfold sameConfiguration, consistent, wellFormed in *; cbn in *;
  repeat match goal with
         | H : is_null ?x = _ |- _ =>
             destruct x; cbn in H; try discriminate H; clear H
         | H : AnimationPlayState_eqb ?x _ = _ |- _ =>
             destruct x; cbn in H; try discriminate H; clear H
         end;
  repeat (split; try reflexivity; try lia);
  intros; try discriminate; try congruence; intuition congruence.

Lemma safe_play : safe play.
Proof.
  intros w Hwf Hc. unfold play, speed. run. cases.
  all: split; [eexists; reflexivity |].
  all: fields w.
Qed.

Lemma safe_pause : safe pause.
Proof.
  intros w Hwf Hc. unfold pause. run. unfold updateTimeOf. cases.
  all: split; [eexists; reflexivity |].
  all: fields w.
Qed.

Lemma safe_set_time : forall newTime, safe (set_time newTime).
Proof.
  intros newTime w Hwf Hc. unfold set_time. run. cases.
  all: split; [eexists; reflexivity |].
  all: fields w.
Qed.

Lemma safe_set_speed : forall newSpeed, safe (set_speed newSpeed).
Proof.
  intros newSpeed w Hwf Hc. unfold set_speed, set_time. run.
  unfold updateTimeOf. cases.
  all: split; [eexists; reflexivity |].
  all: fields w.
Qed.

Lemma safe_complete : safe complete.
Proof.
  intros w Hwf Hc. unfold complete, play, speed. run. cases.
  all: split; [eexists; reflexivity |].
  all: fields w.
Qed.

Lemma safe_setClocks : forall time driver, safe (setClocks time driver).
Proof.
  intros time driver w Hwf Hc. unfold setClocks. cbn.
  split; [eexists; reflexivity |]. fields w.
Qed.

Lemma tickTime_keeps_startTime :
  forall timestamp sample a st,
    startTime a = Some st ->
    startTime (tickTime timestamp sample a) <> None.
Proof.
  intros timestamp sample a st Hst.
  unfold tickTime, tickClock, updateTimeOf, speed. rewrite Hst.
  cases; rewrite ?Hst; discriminate.
Qed.

Lemma safe_tick :
  forall getFinalKeyframe timestamp sample,
    safe (tick getFinalKeyframe timestamp sample).
Proof.
  intros gfk ts sample w Hwf Hc.
  destruct (startTime (this w)) as [st |] eqn:Hst.
  - destruct (tick_outcome gfk ts sample w st Hst Hwf) as (g & _ & Hrun).
    cbv zeta in Hrun. rewrite Hrun. cbn [fst snd this mainThread].
    split; [eexists; reflexivity |].
    pose proof (tickClock_frame ts sample (this w)) as Hfr.
    pose proof (tickTime_keeps_startTime ts sample (this w) st Hst) as Hkeep.
    set (a := tickTime ts sample (this w)) in *.
    cbv zeta in Hfr.
    destruct Hfr as (Hs & Hdr & Hst' & Hg & Hcd & Hrd & Htd & Ho & Hh & Hps
                     & Hmk & Hmg).
    destruct (tickFinished a _); unfold finishedObject.
    + clearbody a.
      destruct a; cbn in *.
      destruct Hc as (Hc1 & Hc2 & Hc3 & Hc4).
      unfold sameConfiguration, consistent.
      destruct driver0; cbn;
        repeat (split; try reflexivity; try lia; try assumption);
        intros; try discriminate.
    + destruct Hc as (Hc1 & Hc2 & Hc3 & Hc4).
      unfold sameConfiguration, consistent.
      rewrite Hs, Hdr, Hst', Hh.
      repeat (split; try assumption; try lia).
      * apply Hc1. assumption.
  - unfold tick, generatorNext, frameGenerator. run. rewrite Hst. cbn.
    split; [eexists; reflexivity |].
    split; [apply sameConfiguration_refl |].
    split; [exact Hc | lia].
Qed.

Lemma safe_bind :
  forall A B (m : M A) (k : A -> M B),
    safe m -> (forall x, safe (k x)) -> safe (bind m k).
Proof.
  intros A B m k Hm Hk w Hwf Hc.
  destruct (Hm w Hwf Hc) as ((x & Hx) & Hcfg & Hc' & Hle).
  unfold bind. destruct (m w) as [c w'] eqn:Em. cbn [fst snd] in *. subst c.
  assert (Hwf' : wellFormed (this w'))
    by exact (sameConfiguration_wellFormed _ _ Hcfg Hwf).
  destruct (Hk x w' Hwf' Hc') as (Hret & Hcfg' & Hc'' & Hle').
  split; [exact Hret |].
  split; [exact (sameConfiguration_trans _ _ _ Hcfg' Hcfg) |].
  split; [exact Hc'' | lia].
Qed.

Lemma safe_ret : forall A (x : A), safe (ret x).
Proof.
  intros A x w Hwf Hc. cbn.
  split; [eexists; reflexivity |].
  split; [apply sameConfiguration_refl |]. split; [exact Hc | lia].
Qed.

Lemma safe_get : safe get.
Proof.
  intros w Hwf Hc. cbn.
  split; [eexists; reflexivity |].
  split; [apply sameConfiguration_refl |]. split; [exact Hc | lia].
Qed.

Lemma safe_timeNow : safe timeNow.
Proof.
  intros w Hwf Hc. cbn.
  split; [eexists; reflexivity |].
  split; [apply sameConfiguration_refl |]. split; [exact Hc | lia].
Qed.

Lemma safe_sample :
  forall getFinalKeyframe sampleTime, safe (sample getFinalKeyframe sampleTime).
Proof.
  intros gfk t. unfold sample. apply safe_bind; [| intros _; apply safe_tick].
  intros w Hwf Hc. run. cbn.
  split; [eexists; reflexivity |]. fields w.
Qed.

Lemma safe_stop : forall getFinalKeyframe, safe (stop getFinalKeyframe).
Proof.
  intros gfk. unfold stop.
  apply safe_bind; [apply safe_get | intros a].
  apply safe_bind; [apply safe_timeNow | intros now].
  apply safe_bind.
  - destruct (Options.motionValue (options a)) as [updatedAt |];
      [| apply safe_ret].
    destruct (negb (JS.eqb updatedAt now)); [| apply safe_ret].
    apply safe_bind; [apply safe_tick | intros _; apply safe_ret].
  - intros _ w Hwf Hc. unfold teardown, stopDriver. run. cases.
    all: split; [eexists; reflexivity |].
    all: fields w.
Qed.

Lemma safe_cancel : forall getFinalKeyframe, safe (cancel getFinalKeyframe).
Proof.
  intros gfk w Hwf Hc.
  destruct (cancel_outcome gfk w Hwf) as (g & _ & H). cbv zeta in H.
  destruct H as (Hret & Hstate & Hstart & Hhold & Hdriver & Hcount & _ & Hcfg).
  split; [eexists; exact Hret |]. split; [exact Hcfg |]. split.
  - unfold consistent. rewrite Hstate, Hdriver.
    repeat split; intros; try discriminate; reflexivity.
  - rewrite Hcount. destruct (tickFinished _ _); lia.
Qed.

Lemma safe_perform :
  forall getFinalKeyframe c, safe (perform getFinalKeyframe c).
Proof.
  intros gfk [| | | | | ts | t | x | s | t1 t2]; cbn [perform].
  - apply safe_play.
  - apply safe_pause.
  - apply safe_stop.
  - apply safe_complete.
  - apply safe_cancel.
  - apply safe_bind; [apply safe_tick | intros _; apply safe_ret].
  - apply safe_bind; [apply safe_sample | intros _; apply safe_ret].
  - apply safe_set_time.
  - apply safe_set_speed.
  - apply safe_setClocks.
Qed.

Lemma safe_performAll :
  forall getFinalKeyframe calls, safe (performAll getFinalKeyframe calls).
Proof.
  intros gfk calls. induction calls as [| c calls IH]; cbn [performAll].
  - apply safe_ret.
  - apply safe_bind; [apply safe_perform | intros _; exact IH].
Qed.

(** ** Construction *)

Section Construction.

Variable runFactory : GeneratorFactory -> Options.t -> KeyframeGenerator.
Variable calcGeneratorDuration : KeyframeGenerator -> Q.
Variable getFinalKeyframe :
  list JSValue -> Options.t -> option JSValue -> Q -> JSValue.
Variable mix : JSValue -> JSValue -> Q -> JSValue.
Variable toNumber : JSValue -> Q.
Variable toString : JSValue -> string.
Variable production : bool.

Lemma constructor_outcome :
  forall (o : Options.t) (w : World),
    let r := constructor runFactory calcGeneratorDuration mix toNumber
                         toString production o w in
    let a := this (snd r) in
    let start :=
      match Options.startTime o with
      | Some s => s
      | None => driver_now w
      end in
    fst r = Normal tt ->
    options a = o
    /\ wellFormed a /\ consistent a
    /\ calculatedDuration a <> None
    /\ driver a <> None
    /\ isStopped a = false
    /\ startTime a = Some start
    /\ mainThread (snd r) = (mainThread w + 1)%Z
    /\ (Options.autoplay o = true ->
        state a = running /\ holdTime a = None)
    /\ (Options.autoplay o = false ->
        state a = paused
        /\ holdTime a = Some (JS.round (time_now w - start) * 1)).
Proof.
  intros o w r a start. subst r a start.
  unfold constructor, initAnimation, play, pause, speed. run.
  unfold updateTimeOf, fieldInitialisers. cases; intro Hret; try discriminate.
  all: unfold wellFormed, consistent; cbn.
  all: destruct (Options.autoplay o); cbn in *; try discriminate.
  all: repeat split; intros; try discriminate; try congruence.
Qed.


(** A construction that throws has already raised the counter and never
    lowers it: the engine is left idle, without a driver, no call has been
    made to the outside, and the error is the two-keyframes assertion. *)
Theorem failed_construction_keeps_count :
  forall (o : Options.t) (w : World) (e : JSError),
    let r := constructor runFactory calcGeneratorDuration mix toNumber
                         toString production o w in
    fst r = Throw e ->
    mainThread (snd r) = (mainThread w + 1)%Z
    /\ state (this (snd r)) = idle
    /\ driver (this (snd r)) = None
    /\ trace (snd r) = trace w
    /\ e = InvariantError (twoKeyframesMessage toString (Options.keyframes o))
                          "spring-two-frames"
    /\ production = false
    /\ selectedFactory o <> keyframesGenerator
    /\ (2 < List.length (Options.keyframes o))%nat.
Proof.
  intros o w e r. subst r.
  unfold constructor, initAnimation, play, pause, speed, selectedFactory. run.
  unfold updateTimeOf, fieldInitialisers. cases; intro Hret; try discriminate.
  all: injection Hret as <-.
  all: destruct production; cbn in *; try discriminate.
  all: repeat split; try reflexivity.
  all: try (intro Hk; subst; cbn in *; discriminate).
  all: apply Nat.leb_gt; assumption.
Qed.

(** No call ever throws on a constructed engine: whatever sequence of
    method calls, assignments, frames and clock changes follows a
    construction that returned, every call returns normally. *)
Theorem calls_never_throw :
  forall (o : Options.t) (w : World) (calls : list Call),
    let w0 := snd (constructor runFactory calcGeneratorDuration mix toNumber
                               toString production o w) in
    fst (constructor runFactory calcGeneratorDuration mix toNumber toString
                     production o w) = Normal tt ->
    fst (performAll getFinalKeyframe calls w0) = Normal tt.
Proof.
  intros o w calls w0 Hret.
  destruct (constructor_outcome o w Hret) as (_ & Hwf & Hc & _).
  destruct (safe_performAll getFinalKeyframe calls w0 Hwf Hc)
    as (([] & Hx) & _).
  exact Hx.
Qed.


(** After any sequence of calls on a constructed engine: a running engine
    holds a driver and has a start time, a paused engine has a hold time,
    and an idle or a stopped engine holds no driver. *)
Theorem lifecycle_is_consistent :
  forall (o : Options.t) (w : World) (calls : list Call),
    let w0 := snd (constructor runFactory calcGeneratorDuration mix toNumber
                               toString production o w) in
    fst (constructor runFactory calcGeneratorDuration mix toNumber toString
                     production o w) = Normal tt ->
    let a := this (snd (performAll getFinalKeyframe calls w0)) in
    (state a = running -> driver a <> None /\ startTime a <> None)
    /\ (state a = paused -> holdTime a <> None)
    /\ (state a = idle -> driver a = None)
    /\ (isStopped a = true -> driver a = None).
Proof.
  intros o w calls w0 Hret a.
  destruct (constructor_outcome o w Hret) as (_ & Hwf & Hc & _).
  destruct (safe_performAll getFinalKeyframe calls w0 Hwf Hc)
    as (_ & _ & Hc' & _).
  exact Hc'.
Qed.

(** Only the constructor raises the counter: after any sequence of calls it
    is at most one above its value before the construction. *)
Theorem counter_never_rises :
  forall (o : Options.t) (w : World) (calls : list Call),
    let w0 := snd (constructor runFactory calcGeneratorDuration mix toNumber
                               toString production o w) in
    fst (constructor runFactory calcGeneratorDuration mix toNumber toString
                     production o w) = Normal tt ->
    (mainThread (snd (performAll getFinalKeyframe calls w0))
     <= mainThread w + 1)%Z.
Proof.
  intros o w calls w0 Hret.
  destruct (constructor_outcome o w Hret)
    as (_ & Hwf & Hc & _ & _ & _ & _ & Hcount & _).
  destruct (safe_performAll getFinalKeyframe calls w0 Hwf Hc)
    as (_ & _ & _ & Hle).
  fold w0 in Hcount. lia.
Qed.

End Construction.

(** ** Held time *)

Lemma tickTime_held :
  forall timestamp a h,
    holdTime a = Some h ->
    currentTime (tickTime timestamp false a)
    == Qmax (h - Options.delay (options a)
                 * (if JS.leb 0 (playbackSpeed a) then 1 else -1)) 0.
Proof.
  intros ts a h Hh.
  unfold tickTime, tickClock, updateTimeOf, speed.
  cases; rewrite ?Hh in *; cbn in *; rewrite ?andb_false_r in *;
    try discriminate; try reflexivity.
Qed.

Lemma tick_held_outcome :
  forall getFinalKeyframe (timestamp : Q) (w : World) st h,
    startTime (this w) = Some st ->
    holdTime (this w) = Some h ->
    wellFormed (this w) ->
    let r := tick getFinalKeyframe timestamp false w in
    (exists s, fst r = Normal s)
    /\ state (this (snd r)) = state (this w)
    /\ holdTime (this (snd r)) = Some h
    /\ mainThread (snd r) = mainThread w
    /\ currentTime (this (snd r))
       == Qmax (h - Options.delay (options (this w))
                    * (if JS.leb 0 (playbackSpeed (this w)) then 1 else -1)) 0.
Proof.
  intros gfk ts w st h Hst Hh Hwf r.
  destruct (tick_outcome gfk ts false w st Hst Hwf) as (g & _ & Hrun).
  cbv zeta in Hrun. subst r. rewrite Hrun. cbn [fst snd this mainThread].
  pose proof (tickClock_frame ts false (this w)) as Hfr. cbv zeta in Hfr.
  destruct Hfr as (Hs & _ & _ & _ & _ & _ & _ & _ & Hh' & _).
  assert (Hfin : forall b, tickFinished (tickTime ts false (this w)) b = false).
  { intro b. unfold tickFinished. rewrite Hh', Hh. reflexivity. }
  rewrite Hfin.
  split; [eexists; reflexivity |]. split; [exact Hs |].
  split; [rewrite Hh'; exact Hh |]. split; [reflexivity |].
  apply tickTime_held. exact Hh.
Qed.

(** ** Pausing and resuming *)

Lemma round_whole : forall n : Z, JS.round (inject_Z n) = inject_Z n.
Proof.
  intro n. unfold JS.round. f_equal.
  apply Z.le_antisymm.
  - assert (H : inject_Z (Qfloor (inject_Z n + (1 # 2))) < inject_Z (n + 1)).
    { pose proof (floor_bounds (inject_Z n + (1 # 2))) as [Hl _].
      rewrite inject_Z_plus. change (inject_Z 1) with 1. lra. }
    rewrite <- Zlt_Qlt in H. lia.
  - rewrite <- (Qfloor_Z n) at 1. apply Qfloor_resp_le. lra.
Qed.







(** ** complete *)

Lemma complete_outcome :
  forall (w : World),
    isStopped (this w) = false ->
    (state (this w) = running -> startTime (this w) <> None) ->
    let w1 := snd (complete w) in
    state (this w1) = finished
    /\ holdTime (this w1) = None
    /\ startTime (this w1) <> None
    /\ sameConfiguration (this w1) (this w)
    /\ playbackSpeed (this w1) = playbackSpeed (this w)
    /\ mainThread w1 = mainThread w.
Proof.
  intros w Hns Hrun w1. subst w1.
  unfold complete, play, speed. run. cases.
  all: unfold sameConfiguration; cbn; repeat split; try reflexivity;
    try discriminate.
  all: try (apply Hrun; destruct (state (this w)); try discriminate; reflexivity).
  all: try congruence.
Qed.

Lemma tickTime_finished :
  forall timestamp sample a,
    state a = finished -> holdTime a = None ->
    currentTime (tickTime timestamp sample a) = totalDuration a.
Proof.
  intros ts sample a Hs Hh.
  unfold tickTime, tickClock, updateTimeOf, speed.
  cases; rewrite ?Hs, ?Hh in *; cbn in *; try discriminate; reflexivity.
Qed.

(** [complete()] on an engine that was not stopped leaves it finished and
    unheld, and the next tick, whatever its timestamp, ends the animation:
    time is pinned to [totalDuration], the final keyframe is returned
    (unless the type is inertia), the completion is notified, the driver is
    released and the counter goes down by one. *)
Theorem complete_then_tick_finishes :
  forall getFinalKeyframe (timestamp : Q) (w : World),
    wellFormed (this w) ->
    isStopped (this w) = false ->
    (state (this w) = running -> startTime (this w) <> None) ->
    let w1 := snd (complete w) in
    let r := tick getFinalKeyframe timestamp false w1 in
    state (this w1) = finished
    /\ holdTime (this w1) = None
    /\ state (this (snd r)) = finished
    /\ startTime (this (snd r)) = None
    /\ driver (this (snd r)) = None
    /\ currentTime (this (snd r)) = totalDuration (this w)
    /\ mainThread (snd r) = (mainThread w - 1)%Z
    /\ In NotifyFinished (trace (snd r))
    /\ (Options.type (options (this w)) <> Some inertia ->
        exists s,
          fst r = Normal s
          /\ value s
             = getFinalKeyframe (Options.keyframes (options (this w)))
                 (options (this w)) (Options.finalKeyframe (options (this w)))
                 (playbackSpeed (this w))).
Proof.
  intros gfk ts w Hwf Hns Hrun w1 r.
  destruct (complete_outcome w Hns Hrun) as (Hs & Hh & Hst & Hcfg & Hps & Hmt).
  fold w1 in Hs, Hh, Hst, Hcfg, Hps, Hmt.
  assert (Hwf1 : wellFormed (this w1))
    by exact (sameConfiguration_wellFormed _ _ Hcfg Hwf).
  destruct (startTime (this w1)) as [st |] eqn:Est; [| contradiction].
  destruct (tick_outcome gfk ts false w1 st Est Hwf1) as (g & _ & Hrun1).
  cbv zeta in Hrun1.
  pose proof (tickClock_frame ts false (this w1)) as Hfr. cbv zeta in Hfr.
  pose proof (tickTime_finished ts false (this w1) Hs Hh) as Hct.
  set (a := tickTime ts false (this w1)) in *.
  destruct Hfr as (Hsa & _ & _ & _ & _ & _ & Htd & Hoa & Hha & Hpsa & _).
  assert (Hfin : forall b, tickFinished a b = true).
  { intro b. unfold tickFinished. rewrite Hha, Hh, Hsa, Hs. reflexivity. }
  rewrite Hfin in Hrun1. subst r. rewrite Hrun1.
  cbn [fst snd this mainThread trace].
  destruct Hcfg as (Ho & _ & _ & _ & _ & _ & Htot).
  split; [exact Hs |]. split; [exact Hh |].
  unfold finishedObject.
  split; [destruct (driver a); reflexivity |].
  split; [destruct (driver a); reflexivity |].
  split; [destruct (driver a) eqn:E; cbn; [reflexivity | exact E] |].
  split; [destruct (driver a); cbn; congruence |].
  split; [lia |].
  split.
  - apply in_or_app. right. unfold tickEvents, finishEvents.
    apply in_or_app. right. apply in_or_app. right. left. reflexivity.
  - intro Hty. eexists. split; [reflexivity |].
    unfold tickResult. rewrite Hoa, Ho, Hpsa, Hps.
    destruct (Options.type (options (this w))) as [[| | |] |]; cbn;
      try reflexivity.
    contradiction Hty. reflexivity.
Qed.

(** ** Natural completion *)



(** ** sample *)

(** The clock part of the tick [sample] makes on a forward engine that is
    not both finished and unheld: the sample time less the delay, whatever
    the start time and the hold time were. *)
Lemma sample_clock :
  forall sampleTime a,
    0 <= playbackSpeed a ->
    ~ (state a = finished /\ holdTime a = None) ->
    let a1 := set_startTime (Some 0) a in
    currentTime (tickTime sampleTime true a1)
    == Qmax (sampleTime - Options.delay (options a)) 0
    /\ (isInDelayPhase sampleTime true a1 = true
        <-> sampleTime < Options.delay (options a))
    /\ (0 < playbackSpeed a ->
        startTime (tickTime sampleTime true a1) = Some (Qmin 0 sampleTime)).
Proof.
  intros t a Hsp Hnf a1. subst a1.
  assert (Hleb : JS.leb 0 (playbackSpeed a) = true).
  { destruct (leb_spec 0 (playbackSpeed a)); [reflexivity | contradiction]. }
  assert (Hltb : JS.ltb (playbackSpeed a) 0 = false).
  { destruct (ltb_spec (playbackSpeed a) 0); [exfalso; lra | reflexivity]. }
  assert (Hfin : AnimationPlayState_eqb (state a) finished
                 && is_null (holdTime a) = false).
  { destruct (state a) eqn:Es; try reflexivity.
    destruct (holdTime a) eqn:Eh; [reflexivity |].
    exfalso. apply Hnf. split; reflexivity. }
  unfold tickTime, isInDelayPhase, tickClock, updateTimeOf, speed. cbn.
  destruct (ltb_spec 0 (playbackSpeed a)) as [Hpos | Hnpos]; cbn;
    rewrite ?Hltb; cbn; rewrite ?Hleb, ?Hfin; cbn.
  all: split; [apply Q.max_compat; [ring | reflexivity] |].
  all: split;
    [ destruct (ltb_spec (t - Options.delay (options a) * 1) 0);
      split; intro H; try reflexivity; try discriminate; lra
    | intro H; try reflexivity; try (exfalso; lra) ].
Qed.

(** [sample(t)] on a forward engine without repeat that is not both
    finished and unheld: once [t] has reached the delay, the primary
    generator is sampled exactly once, at [t - delay], whatever the start
    time, the hold time and the current time of the engine were. *)
Theorem sample_reads_generator :
  forall getFinalKeyframe (sampleTime : Q) (w : World),
    wellFormed (this w) ->
    0 <= playbackSpeed (this w) ->
    Options.repeat (options (this w)) = 0%Z ->
    ~ (state (this w) = finished /\ holdTime (this w) = None) ->
    Options.delay (options (this w)) <= sampleTime ->
    let r := sample getFinalKeyframe sampleTime w in
    exists t rest s,
      t == sampleTime - Options.delay (options (this w))
      /\ fst r = Normal s
      /\ trace (snd r) = trace w ++ GeneratorNext false t :: rest
      /\ (forall m t', ~ In (GeneratorNext m t') rest)
      /\ done s = done (next (generator (this w)) t).
Proof.
  intros gfk t w Hwf Hsp Hrep Hnf Hdel r.
  set (a1 := set_startTime (Some 0) (this w)).
  set (w1 := mkWorld a1 (mainThread w) (time_now w) (driver_now w) (trace w)).
  assert (Hr : r = tick gfk t true w1).
  { subst r. unfold sample. run. reflexivity. }
  destruct (sample_clock t (this w) Hsp Hnf) as (Hct & Hd & _).
  fold a1 in Hct, Hd.
  destruct (tick_outcome gfk t true w1 0 eq_refl Hwf) as (g & Hg & Hrun).
  cbv zeta in Hrun, Hg. change (this w1) with a1 in Hrun, Hg.
  pose proof (tickClock_frame t true a1) as Hfr. cbv zeta in Hfr.
  set (a := tickTime t true a1) in *.
  destruct Hfr as (_ & _ & _ & Hgen & _ & _ & _ & Ho & _).
  change (options a1) with (options (this w)) in Ho.
  change (generator a1) with (generator (this w)) in Hgen.
  assert (Hdf : isInDelayPhase t true a1 = false).
  { destruct (isInDelayPhase t true a1); [| reflexivity].
    exfalso. assert (t < Options.delay (options (this w)))
      by (apply Hd; reflexivity). lra. }
  rewrite Hdf in Hrun, Hg.
  assert (Hel : tickElapsed a = (currentTime a, false)).
  { unfold tickElapsed. rewrite Ho, Hrep. reflexivity. }
  rewrite Hel in Hrun, Hg. cbn [fst snd] in Hrun, Hg.
  assert (Hgg : g = generator (this w)).
  { specialize (Hg eq_refl). unfold frameGenerator in Hg. congruence. }
  subst g.
  rewrite Hr, Hrun. cbn [fst snd trace].
  exists (currentTime a). eexists. eexists.
  split; [rewrite Hct; rewrite Q.max_l by lra; reflexivity |].
  split; [reflexivity |]. unfold tickEvents. cbn [app].
  split; [reflexivity |].
  split; [intros m t'; apply no_sample_after |].
  unfold tickResult, tickSample, set_value.
  destruct (mixKeyframes a); cases; reflexivity.
Qed.


(** ** stop *)

Lemma tick_returns :
  forall getFinalKeyframe timestamp sample w,
    wellFormed (this w) ->
    exists s w',
      tick getFinalKeyframe timestamp sample w = (Normal s, w')
      /\ options (this w') = options (this w).
Proof.
  intros gfk ts sample w Hwf.
  destruct (startTime (this w)) as [st |] eqn:Hst.
  - destruct (tick_outcome gfk ts sample w st Hst Hwf) as (g & _ & Hrun).
    cbv zeta in Hrun. rewrite Hrun. eexists. eexists. split; [reflexivity |].
    cbn [this].
    pose proof (tickClock_frame ts sample (this w)) as Hfr. cbv zeta in Hfr.
    destruct Hfr as (_ & _ & _ & _ & _ & _ & _ & Ho & _).
    destruct (tickFinished _ _); [| exact Ho].
    unfold finishedObject. destruct (driver _); cbn; exact Ho.
  - unfold tick, generatorNext, frameGenerator. run. rewrite Hst. cbn.
    eexists. eexists. split; reflexivity.
Qed.

(** What [stop] does once its optional last tick is over. *)
Lemma stop_tail :
  forall (w : World),
    let m :=
      (modify (set_isStopped true) ;;
       a <- get ;;
       if AnimationPlayState_eqb (state a) idle then ret tt else
       teardown ;;
       when (Options.onStop (options a)) (emit CallOnStop)) in
    let w1 := snd (m w) in
    fst (m w) = Normal tt
    /\ state (this w1) = idle
    /\ isStopped (this w1) = true
    /\ options (this w1) = options (this w)
    /\ play w1 = (Normal tt, w1)
    /\ m w1 = (Normal tt, w1)
    /\ mainThread w1
       = (if AnimationPlayState_eqb (state (this w)) idle
          then mainThread w else (mainThread w - 1)%Z).
Proof.
  intros w m w1. subst w1 m.
  unfold teardown, stopDriver, play. run. cases.
  all: repeat split; try reflexivity.
  all: destruct (state (this w)); try discriminate; reflexivity.
Qed.

(** [stop] is final: from any well-formed engine it returns normally and
    leaves the engine idle and stopped, after which [play()] changes
    nothing at all.  Without a bound motion value, [stop] lowers the counter
    by one unless the engine was already idle (so also on an engine that
    [finish] has already torn down), and a second [stop()] changes
    nothing. *)
Theorem stop_is_final :
  forall getFinalKeyframe (w : World),
    wellFormed (this w) ->
    let w1 := snd (stop getFinalKeyframe w) in
    fst (stop getFinalKeyframe w) = Normal tt
    /\ state (this w1) = idle
    /\ isStopped (this w1) = true
    /\ play w1 = (Normal tt, w1)
    /\ (Options.motionValue (options (this w)) = None ->
        stop getFinalKeyframe w1 = (Normal tt, w1)
        /\ mainThread w1
           = (if AnimationPlayState_eqb (state (this w)) idle
              then mainThread w else (mainThread w - 1)%Z)).
Proof.
  intros gfk w Hwf w1.
  assert (Hstop : exists w',
    stop gfk w
    = (modify (set_isStopped true) ;;
       a <- get ;;
       if AnimationPlayState_eqb (state a) idle then ret tt else
       teardown ;;
       when (Options.onStop (options a)) (emit CallOnStop)) w'
    /\ options (this w') = options (this w)
    /\ (Options.motionValue (options (this w)) = None -> w' = w)).
  { unfold stop. unfold bind at 1 2 3. cbn [get timeNow].
    destruct (Options.motionValue (options (this w))) as [updatedAt |].
    - destruct (negb (JS.eqb updatedAt (time_now w))).
      + destruct (tick_returns gfk (time_now w) false w Hwf)
          as (s & w' & Hrun & Ho).
        unfold bind at 1. rewrite Hrun. exists w'. cbn [ret].
        split; [reflexivity |]. split; [exact Ho | intro H; discriminate H].
      + exists w. cbn [ret]. split; [reflexivity |].
        split; [reflexivity | intro H; discriminate H].
    - exists w. cbn [ret]. split; [reflexivity |]. split; reflexivity. }
  destruct Hstop as (w' & Hstop & Ho & Hsame).
  destruct (stop_tail w') as (H1 & H2 & H3 & H4 & H5 & H6 & H7).
  cbv zeta in H1, H2, H3, H4, H5, H6, H7.
  subst w1. rewrite Hstop.
  split; [exact H1 |]. split; [exact H2 |]. split; [exact H3 |].
  split; [exact H5 |].
  intro Hmv. specialize (Hsame Hmv). subst w'. split; [| exact H7].
  unfold stop. unfold bind at 1 2 3. cbn [get timeNow].
  rewrite H4, Hmv. cbn [ret]. exact H6.
Qed.



(** ** Bounds on time *)







(** ** Seeking and changing speed *)

(** Seeking a held, started engine stores the new time in [holdTime] and
    leaves [startTime] alone; the frame that follows, whatever its
    timestamp, does not finish the animation and shows the new time less
    the delay, clamped at zero. *)
Theorem seek_while_held_then_tick :
  forall getFinalKeyframe (X timestamp : Q) (w : World) st h,
    startTime (this w) = Some st ->
    holdTime (this w) = Some h ->
    wellFormed (this w) ->
    let w1 := snd (set_time X w) in
    let r := tick getFinalKeyframe timestamp false w1 in
    holdTime (this w1) = Some (secondsToMilliseconds X)
    /\ startTime (this w1) = Some st
    /\ state (this (snd r)) = state (this w)
    /\ mainThread (snd r) = mainThread w
    /\ currentTime (this (snd r))
       == Qmax (X * 1000
                - Options.delay (options (this w))
                  * (if JS.leb 0 (playbackSpeed (this w)) then 1 else -1)) 0.
Proof.
  intros gfk X ts w st h Hst Hh Hwf w1 r.
  assert (Hw1 : holdTime (this w1) = Some (secondsToMilliseconds X)
                /\ startTime (this w1) = Some st
                /\ state (this w1) = state (this w)
                /\ options (this w1) = options (this w)
                /\ playbackSpeed (this w1) = playbackSpeed (this w)
                /\ mirroredGenerator (this w1) = mirroredGenerator (this w)
                /\ mainThread w1 = mainThread w).
  { subst w1. unfold set_time. run. cbn. rewrite Hh. cbn.
    rewrite orb_true_r. cbn.
    destruct (is_null (driver (this w))); cbn; repeat split; assumption. }
  destruct Hw1 as (Hh1 & Hst1 & Hs1 & Ho1 & Hps1 & Hmg1 & Hmt1).
  assert (Hwf1 : wellFormed (this w1)).
  { unfold wellFormed. rewrite Ho1, Hmg1. exact Hwf. }
  destruct (tick_held_outcome gfk ts w1 st _ Hst1 Hh1 Hwf1)
    as (_ & Hs & _ & Hmt & Hct). fold r in Hs, Hmt, Hct.
  split; [exact Hh1 |]. split; [exact Hst1 |].
  split; [congruence |]. split; [congruence |].
  rewrite Hct, Ho1, Hps1. unfold secondsToMilliseconds. reflexivity.
Qed.


(** ** Replaying and re-pausing *)



(** [play()] on an engine that is already running, unheld and holds a
    driver changes nothing in the engine when its start time is not zero.
    A start time of zero counts as unset: [play()] then re-bases it to
    [options.startTime], or to the driver's clock when none is given. *)
Theorem play_on_a_running_engine :
  forall (w : World) st,
    isStopped (this w) = false ->
    state (this w) = running ->
    holdTime (this w) = None ->
    startTime (this w) = Some st ->
    driver (this w) <> None ->
    (~ st == 0 -> this (snd (play w)) = this w)
    /\ (st == 0 ->
        startTime (this (snd (play w)))
        = Some (match Options.startTime (options (this w)) with
                | Some s => s
                | None => driver_now w
                end)).
Proof.
  intros w st Hns Hs Hh Hst Hdr.
  unfold play, speed. run. rewrite Hns, Hs, Hh, Hst. cbn.
  destruct (driver (this w)) as [dr |] eqn:Edr; [| contradiction]. cbn.
  destruct (eqb_spec st 0) as [H0 | Hn0]; split; intro H;
    try contradiction;
    destruct (Options.onPlay (options (this w))); cbn; try reflexivity.
  all: destruct (this w); cbn in *; subst; reflexivity.
Qed.

(** A paused engine ignores the clocks: [pause()] again, whatever the
    clocks have moved to in between, changes nothing in the engine, and
    [pause()] never touches the counter or calls out. *)
Theorem pause_is_idempotent :
  forall (w : World) (time driver : Q),
    let w1 := snd (pause w) in
    let w2 := snd (pause (snd (setClocks time driver w1))) in
    this w2 = this w1
    /\ state (this w1) = paused
    /\ holdTime (this w1) = Some (currentTime (this w1))
    /\ mainThread w2 = mainThread w
    /\ trace w2 = trace w.
Proof.
  intros w t d w1 w2. subst w2 w1.
  unfold pause, setClocks. run. unfold updateTimeOf. cbn.
  destruct (holdTime (this w)); cbn; repeat split; reflexivity.
Qed.

(** ** scrapeMotionValuesFromProps *)

Section ScrapeProperties.

Variable V : Type.
Variable isMotionValue : option V -> bool.
Variable isForcedMotionValue : string -> Scrape.MotionProps V -> bool.

Lemma obj_get_set_same :
  forall key (v : V) obj, Scrape.obj_get key (Scrape.obj_set key v obj) = Some v.
Proof.
  intros key v obj. induction obj as [| [k v'] rest IH]; cbn.
  - now rewrite String.eqb_refl.
  - destruct (String.eqb k key) eqn:E; cbn; rewrite E; [reflexivity | exact IH].
Qed.

Lemma obj_get_set_other :
  forall key key' (v : V) obj,
    key <> key' ->
    Scrape.obj_get key' (Scrape.obj_set key v obj) = Scrape.obj_get key' obj.
Proof.
  intros key key' v obj Hne. induction obj as [| [k v'] rest IH]; cbn.
  - destruct (String.eqb_spec key key'); [contradiction | reflexivity].
  - destruct (String.eqb_spec k key) as [-> | Hk]; cbn.
    + destruct (String.eqb_spec key key'); [contradiction | reflexivity].
    + destruct (String.eqb k key'); [reflexivity | exact IH].
Qed.

Lemma obj_get_None :
  forall key (obj : Scrape.Obj V),
    Scrape.obj_get key obj = None <-> ~ In key (Scrape.keys obj).
Proof.
  intros key obj. induction obj as [| [k v] rest IH]; cbn.
  - split; [intros _ [] | reflexivity].
  - destruct (String.eqb_spec k key) as [-> | Hk].
    + split; [discriminate | intro H; exfalso; apply H; now left].
    + rewrite IH. split; intro H.
      * intros [Hc | Hc]; [contradiction | exact (H Hc)].
      * intro Hc. apply H. now right.
Qed.

(** The loop, over any list of keys and from any accumulator. *)
Lemma scrape_loop :
  forall (cond : string -> bool) (styleObj : Scrape.Obj V) ks acc key,
    Scrape.obj_get key
      (fold_left
         (fun newValues k =>
            if cond k
            then match Scrape.obj_get k styleObj with
                 | Some v => Scrape.obj_set k v newValues
                 | None => newValues
                 end
            else newValues)
         ks acc)
    = if existsb (String.eqb key) ks && cond key
      then match Scrape.obj_get key styleObj with
           | Some v => Some v
           | None => Scrape.obj_get key acc
           end
      else Scrape.obj_get key acc.
Proof.
  intros cond styleObj ks. induction ks as [| k ks IH]; intros acc key; cbn.
  - reflexivity.
  - rewrite IH. destruct (String.eqb_spec key k) as [-> | Hne]; cbn.
    + destruct (cond k) eqn:Ec; cbn.
      * rewrite andb_true_r.
        destruct (Scrape.obj_get k styleObj) as [v |] eqn:Eg.
        -- rewrite obj_get_set_same. destruct (existsb _ ks); reflexivity.
        -- destruct (existsb _ ks); reflexivity.
      * rewrite andb_false_r. reflexivity.
    + destruct (cond k) eqn:Ec.
      * destruct (Scrape.obj_get k styleObj) as [v |] eqn:Eg.
        -- rewrite (obj_get_set_other k key v acc) by congruence. reflexivity.
        -- reflexivity.
      * reflexivity.
Qed.

(** [scrapeMotionValuesFromProps] returns exactly the entries of
    [props.style] whose key passes the test (the value is a motion value
    now or was one in [prevProps.style], the key is forced, or the visual
    element has a live style for it), each with the value [props.style]
    holds; a key that [props.style] lacks is never returned, and without a
    [style] the result is empty. *)
Theorem scrape_lookup :
  forall (props prevProps : Scrape.MotionProps V)
         (visualElement : option (Scrape.VisualElement V)) (key : string),
    Scrape.obj_get key
      (Scrape.scrapeMotionValuesFromProps isMotionValue isForcedMotionValue
         props prevProps visualElement)
    = match Scrape.style props with
      | None => None
      | Some styleObj =>
          if Scrape.scraped isMotionValue isForcedMotionValue props prevProps
               visualElement styleObj key
          then Scrape.obj_get key styleObj
          else None
      end.
Proof.
  intros props prevProps ve key. unfold Scrape.scrapeMotionValuesFromProps.
  destruct (Scrape.style props) as [styleObj |]; [| reflexivity].
  rewrite scrape_loop. cbn [Scrape.obj_get].
  destruct (Scrape.obj_get key styleObj) as [v |] eqn:Eg.
  - assert (Hin : existsb (String.eqb key) (Scrape.keys styleObj) = true).
    { apply existsb_exists. exists key. split; [| apply String.eqb_refl].
      destruct (in_dec string_dec key (Scrape.keys styleObj)) as [H | H];
        [exact H |].
      apply obj_get_None in H. congruence. }
    rewrite Hin. cbn [andb]. reflexivity.
  - destruct (existsb _ _ && _); destruct (Scrape.scraped _ _ _ _ _ _ _);
      reflexivity.
Qed.

End ScrapeProperties.

Section ScrapeOrder.

Variable V : Type.
Variable isMotionValue : option V -> bool.
Variable isForcedMotionValue : string -> Scrape.MotionProps V -> bool.

Lemma keys_obj_set_new :
  forall key (v : V) obj,
    ~ In key (Scrape.keys obj) ->
    Scrape.keys (Scrape.obj_set key v obj) = Scrape.keys obj ++ [key].
Proof.
  intros key v obj. induction obj as [| [k v'] rest IH]; cbn; intro Hnin.
  - reflexivity.
  - destruct (String.eqb_spec k key) as [-> | Hk]; cbn.
    + exfalso. apply Hnin. now left.
    + f_equal. apply IH. intro H. apply Hnin. now right.
Qed.

Lemma scrape_loop_keys :
  forall (cond : string -> bool) (styleObj : Scrape.Obj V) ks acc,
    NoDup ks ->
    (forall k, In k ks -> Scrape.obj_get k styleObj <> None) ->
    (forall k, In k ks -> ~ In k (Scrape.keys acc)) ->
    Scrape.keys
      (fold_left
         (fun newValues k =>
            if cond k
            then match Scrape.obj_get k styleObj with
                 | Some v => Scrape.obj_set k v newValues
                 | None => newValues
                 end
            else newValues)
         ks acc)
    = Scrape.keys acc ++ filter cond ks.
Proof.
  intros cond styleObj ks. induction ks as [| k ks IH]; intros acc Hnd Hget Hfresh;
    cbn [fold_left filter].
  - now rewrite app_nil_r.
  - inversion Hnd as [| ? ? Hk Hnd']; subst.
    destruct (cond k) eqn:Ec.
    + destruct (Scrape.obj_get k styleObj) as [v |] eqn:Eg.
      * rewrite IH.
        -- rewrite keys_obj_set_new by (apply Hfresh; now left).
           rewrite <- app_assoc. reflexivity.
        -- exact Hnd'.
        -- intros k' Hin. apply Hget. now right.
        -- intros k' Hin.
           rewrite keys_obj_set_new by (apply Hfresh; now left).
           intro Hc. apply in_app_or in Hc. destruct Hc as [Hc | [Hc | []]].
           ++ exact (Hfresh k' (or_intror Hin) Hc).
           ++ subst k'. exact (Hk Hin).
      * exfalso. apply (Hget k); [now left | exact Eg].
    + apply IH.
      * exact Hnd'.
      * intros k' Hin. apply Hget. now right.
      * intros k' Hin. apply Hfresh. now right.
Qed.

(** The object [scrapeMotionValuesFromProps] returns lists its keys in the
    order in which [props.style] lists them: they are the keys of
    [props.style] that pass the test, none twice and none added. *)
Theorem scrape_keeps_key_order :
  forall (props prevProps : Scrape.MotionProps V)
         (visualElement : option (Scrape.VisualElement V))
         (styleObj : Scrape.Obj V),
    Scrape.style props = Some styleObj ->
    NoDup (Scrape.keys styleObj) ->
    Scrape.keys
      (Scrape.scrapeMotionValuesFromProps isMotionValue isForcedMotionValue
         props prevProps visualElement)
    = filter (Scrape.scraped isMotionValue isForcedMotionValue props prevProps
                visualElement styleObj)
        (Scrape.keys styleObj).
Proof.
  intros props prevProps ve styleObj Hstyle Hnd.
  unfold Scrape.scrapeMotionValuesFromProps. rewrite Hstyle.
  rewrite scrape_loop_keys.
  - reflexivity.
  - exact Hnd.
  - intros k Hin Hnone. apply obj_get_None in Hnone. exact (Hnone Hin).
  - intros k _ [].
Qed.

End ScrapeOrder.

Lemma scrape_keeps_key_order_witness :
  NoDup (Scrape.keys [("x"%string, 1%Z); ("opacity"%string, 0%Z);
                      ("y"%string, 2%Z)])
  /\ Scrape.keys
       (Scrape.scrapeMotionValuesFromProps
          (fun v => match v with Some 0%Z => false | Some _ => true | None => false end)
          (fun _ _ => false)
          (Scrape.mkMotionProps Z
             (Some [("x"%string, 1%Z); ("opacity"%string, 0%Z);
                    ("y"%string, 2%Z)]))
          (Scrape.mkMotionProps Z None) None)
     = ["x"%string; "y"%string].
Proof.
  assert (Hnd : NoDup (Scrape.keys [("x"%string, 1%Z); ("opacity"%string, 0%Z);
                                    ("y"%string, 2%Z)])).
  { repeat constructor; cbn; intuition discriminate. }
  split; [exact Hnd |].
  rewrite (scrape_keeps_key_order Z
             (fun v => match v with Some 0%Z => false | Some _ => true | None => false end)
             (fun _ _ => false)
             (Scrape.mkMotionProps Z
                (Some [("x"%string, 1%Z); ("opacity"%string, 0%Z);
                       ("y"%string, 2%Z)]))
             (Scrape.mkMotionProps Z None) None
             [("x"%string, 1%Z); ("opacity"%string, 0%Z); ("y"%string, 2%Z)]
             eq_refl Hnd).
  vm_compute. reflexivity.
Defined.

(** * Instances

    The properties above that rest on a hypothesis, each at a concrete
    engine. *)

(** Closed goals over the fixtures are settled by evaluation. *)
Ltac evaluate :=
  vm_compute;
  first [ reflexivity | discriminate | intro; discriminate | intros _ ?; discriminate ].


Lemma failed_construction_keeps_count_witness :
  fst (Fixture.new 300 Fixture.threeSprings (Fixture.world 1000))
  = Throw (InvariantError
             (twoKeyframesMessage Fixture.toString
                (Options.keyframes Fixture.threeSprings))
             "spring-two-frames")
  /\ mainThread (snd (Fixture.new 300 Fixture.threeSprings (Fixture.world 1000)))
     = 1%Z
  /\ driver (this (snd (Fixture.new 300 Fixture.threeSprings
                          (Fixture.world 1000)))) = None.
Proof.
  unfold Fixture.new.
  assert (Hret :
    fst (constructor (Fixture.runFactory 300) Fixture.calcGeneratorDuration
           Fixture.mix Fixture.toNumber Fixture.toString false
           Fixture.threeSprings (Fixture.world 1000))
    = Throw (InvariantError
               (twoKeyframesMessage Fixture.toString
                  (Options.keyframes Fixture.threeSprings))
               "spring-two-frames")) by evaluate.
  destruct (failed_construction_keeps_count (Fixture.runFactory 300)
              Fixture.calcGeneratorDuration Fixture.mix Fixture.toNumber
              Fixture.toString false Fixture.threeSprings (Fixture.world 1000)
              _ Hret)
    as (Hcount & _ & Hdriver & _).
  split; [exact Hret |]. split; [exact Hcount | exact Hdriver].
Defined.

Lemma calls_never_throw_witness :
  fst (Fixture.new 300 Fixture.plain (Fixture.world 1000)) = Normal tt
  /\ fst (performAll Fixture.getFinalKeyframe Fixture.session
            (snd (Fixture.new 300 Fixture.plain (Fixture.world 1000))))
     = Normal tt.
Proof.
  unfold Fixture.new.
  assert (Hret :
    fst (constructor (Fixture.runFactory 300) Fixture.calcGeneratorDuration
           Fixture.mix Fixture.toNumber Fixture.toString false Fixture.plain
           (Fixture.world 1000)) = Normal tt) by evaluate.
  split; [exact Hret |].
  exact (calls_never_throw (Fixture.runFactory 300)
           Fixture.calcGeneratorDuration Fixture.getFinalKeyframe Fixture.mix
           Fixture.toNumber Fixture.toString false Fixture.plain
           (Fixture.world 1000) Fixture.session Hret).
Defined.


Lemma lifecycle_is_consistent_witness :
  fst (Fixture.new 300 Fixture.plain (Fixture.world 1000)) = Normal tt
  /\ (state (this (snd (performAll Fixture.getFinalKeyframe Fixture.session
                          (snd (Fixture.new 300 Fixture.plain
                                  (Fixture.world 1000)))))) = idle ->
      driver (this (snd (performAll Fixture.getFinalKeyframe Fixture.session
                           (snd (Fixture.new 300 Fixture.plain
                                   (Fixture.world 1000)))))) = None).
Proof.
  unfold Fixture.new.
  assert (Hret :
    fst (constructor (Fixture.runFactory 300) Fixture.calcGeneratorDuration
           Fixture.mix Fixture.toNumber Fixture.toString false Fixture.plain
           (Fixture.world 1000)) = Normal tt) by evaluate.
  split; [exact Hret |].
  destruct (lifecycle_is_consistent (Fixture.runFactory 300)
              Fixture.calcGeneratorDuration Fixture.getFinalKeyframe
              Fixture.mix Fixture.toNumber Fixture.toString false
              Fixture.plain (Fixture.world 1000) Fixture.session Hret)
    as (_ & _ & Hidle & _).
  exact Hidle.
Defined.

Lemma counter_never_rises_witness :
  fst (Fixture.new 300 Fixture.plain (Fixture.world 1000)) = Normal tt
  /\ (mainThread (snd (performAll Fixture.getFinalKeyframe Fixture.session
                         (snd (Fixture.new 300 Fixture.plain
                                 (Fixture.world 1000)))))
      <= mainThread (Fixture.world 1000) + 1)%Z.
Proof.
  unfold Fixture.new.
  assert (Hret :
    fst (constructor (Fixture.runFactory 300) Fixture.calcGeneratorDuration
           Fixture.mix Fixture.toNumber Fixture.toString false Fixture.plain
           (Fixture.world 1000)) = Normal tt) by evaluate.
  split; [exact Hret |].
  exact (counter_never_rises (Fixture.runFactory 300)
           Fixture.calcGeneratorDuration Fixture.getFinalKeyframe Fixture.mix
           Fixture.toNumber Fixture.toString false Fixture.plain
           (Fixture.world 1000) Fixture.session Hret).
Defined.




Lemma complete_then_tick_finishes_witness :
  wellFormed (this Fixture.started)
  /\ isStopped (this Fixture.started) = false
  /\ (state (this Fixture.started) = running ->
      startTime (this Fixture.started) <> None)
  /\ state (this (snd (tick Fixture.getFinalKeyframe 1000 false
                         (snd (complete Fixture.started)))))
     = finished
  /\ mainThread (snd (tick Fixture.getFinalKeyframe 1000 false
                        (snd (complete Fixture.started))))
     = (mainThread Fixture.started - 1)%Z.
Proof.
  assert (Hwf : wellFormed (this Fixture.started)).
  { intro H. discriminate H. }
  assert (Hns : isStopped (this Fixture.started) = false) by evaluate.
  assert (Hrun : state (this Fixture.started) = running ->
                 startTime (this Fixture.started) <> None).
  { intros _ H. discriminate H. }
  destruct (complete_then_tick_finishes Fixture.getFinalKeyframe 1000
              Fixture.started Hwf Hns Hrun)
    as (_ & _ & Hstate & _ & _ & _ & Hcount & _).
  split; [exact Hwf |]. split; [exact Hns |]. split; [exact Hrun |].
  split; [exact Hstate | exact Hcount].
Defined.


Lemma sample_reads_generator_witness :
  wellFormed (this Fixture.started)
  /\ 0 <= playbackSpeed (this Fixture.started)
  /\ Options.repeat (options (this Fixture.started)) = 0%Z
  /\ ~ (state (this Fixture.started) = finished
        /\ holdTime (this Fixture.started) = None)
  /\ Options.delay (options (this Fixture.started)) <= 150
  /\ exists t rest s,
       t == 150 - Options.delay (options (this Fixture.started))
       /\ fst (sample Fixture.getFinalKeyframe 150 Fixture.started) = Normal s
       /\ trace (snd (sample Fixture.getFinalKeyframe 150 Fixture.started))
          = trace Fixture.started ++ GeneratorNext false t :: rest
       /\ (forall m t', ~ In (GeneratorNext m t') rest)
       /\ done s = done (next (generator (this Fixture.started)) t).
Proof.
  assert (Hwf : wellFormed (this Fixture.started)).
  { intro H. discriminate H. }
  assert (Hsp : 0 <= playbackSpeed (this Fixture.started)) by evaluate.
  assert (Hrep : Options.repeat (options (this Fixture.started)) = 0%Z)
    by evaluate.
  assert (Hnf : ~ (state (this Fixture.started) = finished
                   /\ holdTime (this Fixture.started) = None)).
  { intros [H _]. discriminate H. }
  assert (Hdel : Options.delay (options (this Fixture.started)) <= 150)
    by evaluate.
  split; [exact Hwf |]. split; [exact Hsp |]. split; [exact Hrep |].
  split; [exact Hnf |]. split; [exact Hdel |].
  exact (sample_reads_generator Fixture.getFinalKeyframe 150 Fixture.started
           Hwf Hsp Hrep Hnf Hdel).
Defined.


Lemma stop_is_final_witness :
  wellFormed (this Fixture.started)
  /\ state (this (snd (stop Fixture.getFinalKeyframe Fixture.started))) = idle
  /\ play (snd (stop Fixture.getFinalKeyframe Fixture.started))
     = (Normal tt, snd (stop Fixture.getFinalKeyframe Fixture.started)).
Proof.
  assert (Hwf : wellFormed (this Fixture.started)).
  { intro H. discriminate H. }
  destruct (stop_is_final Fixture.getFinalKeyframe Fixture.started Hwf)
    as (_ & Hstate & _ & Hplay & _).
  split; [exact Hwf |]. split; [exact Hstate | exact Hplay].
Defined.



Lemma seek_while_held_then_tick_witness :
  startTime (this Fixture.pausedAt100) = Some 1000
  /\ holdTime (this Fixture.pausedAt100) = Some 100
  /\ wellFormed (this Fixture.pausedAt100)
  /\ holdTime (this (snd (set_time (1 # 5) Fixture.pausedAt100)))
     = Some (secondsToMilliseconds (1 # 5))
  /\ state (this (snd (tick Fixture.getFinalKeyframe 5000 false
                         (snd (set_time (1 # 5) Fixture.pausedAt100)))))
     = state (this Fixture.pausedAt100).
Proof.
  assert (Hst : startTime (this Fixture.pausedAt100) = Some 1000) by evaluate.
  assert (Hh : holdTime (this Fixture.pausedAt100) = Some 100) by evaluate.
  assert (Hwf : wellFormed (this Fixture.pausedAt100)).
  { intro H. discriminate H. }
  destruct (seek_while_held_then_tick Fixture.getFinalKeyframe (1 # 5) 5000
              Fixture.pausedAt100 1000 100 Hst Hh Hwf)
    as (Hhold & _ & Hstate & _).
  split; [exact Hst |]. split; [exact Hh |]. split; [exact Hwf |].
  split; [exact Hhold | exact Hstate].
Defined.



Lemma play_on_a_running_engine_witness :
  isStopped (this Fixture.startedAt1100) = false
  /\ state (this Fixture.startedAt1100) = running
  /\ holdTime (this Fixture.startedAt1100) = None
  /\ startTime (this Fixture.startedAt1100) = Some 1000
  /\ driver (this Fixture.startedAt1100) <> None
  /\ this (snd (play Fixture.startedAt1100)) = this Fixture.startedAt1100.
Proof.
  assert (Hns : isStopped (this Fixture.startedAt1100) = false) by evaluate.
  assert (Hs : state (this Fixture.startedAt1100) = running) by evaluate.
  assert (Hh : holdTime (this Fixture.startedAt1100) = None) by evaluate.
  assert (Hst : startTime (this Fixture.startedAt1100) = Some 1000)
    by evaluate.
  assert (Hdr : driver (this Fixture.startedAt1100) <> None).
  { intro H. discriminate H. }
  destruct (play_on_a_running_engine Fixture.startedAt1100 1000
              Hns Hs Hh Hst Hdr) as [Hsame _].
  assert (Hn0 : ~ 1000 == 0) by evaluate.
  split; [exact Hns |]. split; [exact Hs |]. split; [exact Hh |].
  split; [exact Hst |]. split; [exact Hdr |]. exact (Hsame Hn0).
Defined.
